(** * Credit-card fraud detection: generator, feature engineering and scoring

    A shallow embedding of [train_model.py] (synthetic data generation and
    feature engineering) and of [app.py] (artifact loading, feature-vector
    assembly, decision rule and risk tier, and what the page derives from a
    score: tiles, risk factors, feature-importance bars).

    Python floats and numpy [float64] are IEEE-754 binary64 numbers: they are
    modelled by Rocq's primitive [float], whose operations are specified by
    [SpecFloat].  Python integers are [Z]; numpy [int64] is [Z] with its
    wrap-around written out.  Exceptions are values of [exn], carried by the
    [result] monad. *)

From Stdlib Require Import ZArith Floats Lia Bool.
From stdpp Require Import gmap strings list pretty.

Set Warnings "-inexact-float".
Local Open Scope Z_scope.

(** ** Exceptions and the error monad *)

Inductive exn : Type :=
| ValueError
| OverflowError
| ZeroDivisionError
| AttributeError
| KeyError (missing : list string)
| FileNotFoundError (path : string).

Inductive result (A : Type) : Type :=
| Ok (a : A)
| Raise (e : exn).
Arguments Ok {A} a.
Arguments Raise {A} e.

#[global] Instance result_ret : MRet result := fun _ a => Ok a.
#[global] Instance result_bind : MBind result := fun _ _ f m =>
  match m with
  | Ok a => f a
  | Raise e => Raise e
  end.
#[global] Instance result_fmap : FMap result := fun _ _ f m =>
  match m with
  | Ok a => Ok (f a)
  | Raise e => Raise e
  end.

Definition is_ok {A} (r : result A) : bool :=
  match r with Ok _ => true | Raise _ => false end.

(** ** Python and numpy numbers *)

(** A cell of a data frame or a Python scalar: an integer or a float. *)
Inductive value : Type :=
| VInt (z : Z)
| VFloat (x : float).

(** [float(n)] for a Python integer: the nearest binary64 number (ties to
    even); [OverflowError] when it is out of range. *)
Definition py_float (n : Z) : result float :=
  match binary_normalize prec emax n 0 false with
  | S754_infinity _ => Raise OverflowError
  | x => Ok (SF2Prim x)
  end.

(** [int(x)] for a float: truncation towards zero; NaN and the infinities
    raise. *)
Definition py_int (x : float) : result Z :=
  match Prim2SF x with
  | S754_nan => Raise ValueError
  | S754_infinity _ => Raise OverflowError
  | S754_zero _ => Ok 0
  | S754_finite s m e => Ok (cond_Zopp s (Z.shiftl (Z.pos m) e))
  end.

(** [n * x] for an integer [n] and a float [x]: the integer is converted
    first. *)
Definition py_mul_int_float (n : Z) (x : float) : result float :=
  f ← py_float n; Ok (f * x)%float.

(** The integer [n] as an exact (not normalised) spec float. *)
Definition Z2SF (n : Z) : spec_float :=
  match n with
  | Z0 => S754_zero false
  | Z.pos p => S754_finite false p 0
  | Z.neg p => S754_finite true p 0
  end.

(** [a / b] on Python integers: the correctly rounded quotient of the two
    integers. *)
Definition py_truediv_int (a b : Z) : result float :=
  if decide (b = 0) then Raise ZeroDivisionError
  else match SFdiv prec emax (Z2SF a) (Z2SF b) with
       | S754_infinity _ => Raise OverflowError
       | q => Ok (SF2Prim q)
       end.

(** [x / y] on Python floats. *)
Definition py_truediv_float (x y : float) : result float :=
  if (y =? 0)%float then Raise ZeroDivisionError else Ok (x / y)%float.

(** Python's binary [+] and [/] on scalars, with the usual promotion of
    integers to floats in mixed operations. *)
Definition py_add (a b : value) : result value :=
  match a, b with
  | VInt x, VInt y => Ok (VInt (x + y))
  | VInt x, VFloat y => f ← py_float x; Ok (VFloat (f + y))
  | VFloat x, VInt y => f ← py_float y; Ok (VFloat (x + f))
  | VFloat x, VFloat y => Ok (VFloat (x + y))
  end.

Definition py_truediv (a b : value) : result value :=
  match a, b with
  | VInt x, VInt y => VFloat <$> py_truediv_int x y
  | VInt x, VFloat y => f ← py_float x; VFloat <$> py_truediv_float f y
  | VFloat x, VInt y => f ← py_float y; VFloat <$> py_truediv_float x f
  | VFloat x, VFloat y => VFloat <$> py_truediv_float x y
  end.

(** numpy: [int64] arithmetic wraps around; conversion to [float64] rounds to
    nearest (an [int64] never overflows a binary64). *)
Definition wrap64 (z : Z) : Z := (z + 2 ^ 63) mod 2 ^ 64 - 2 ^ 63.

Definition np_float64 (n : Z) : float :=
  SF2Prim (binary_normalize prec emax n 0 false).

Definition as_float64 (v : value) : float :=
  match v with
  | VInt z => np_float64 z
  | VFloat x => x
  end.

(** [a + b] elementwise: [int64 + int64] stays [int64], anything else is
    [float64]. *)
Definition np_add (a b : value) : value :=
  match a, b with
  | VInt x, VInt y => VInt (wrap64 (x + y))
  | _, _ => VFloat (as_float64 a + as_float64 b)
  end.

(** [a / b] elementwise is [np.true_divide]: always [float64], and IEEE
    division (a zero divisor gives an infinity or NaN, not an exception). *)
Definition np_true_divide (a b : value) : value :=
  VFloat (as_float64 a / as_float64 b).

(** ** Data frames

    A [pandas.DataFrame] is kept column-wise, as pandas does: an ordered list
    of named columns of equal length.  The row index is positional (the script
    ends the generation with [reset_index(drop=True)]). *)

Abbreviation column := (list value).
Abbreviation DataFrame := (list (string * column)).

Definition nan_value : value := VFloat nan.

Definition nrows (df : DataFrame) : nat :=
  match df with
  | [] => 0%nat
  | (_, c) :: _ => length c
  end.

Definition columns (df : DataFrame) : list string := df.*1.

(** [pd.DataFrame({name: array, ...})]: the arrays must have one length. *)
Definition pd_DataFrame (cols : list (string * column)) : result DataFrame :=
  match cols with
  | [] => Ok []
  | (_, c) :: _ =>
      if forallb (fun nc => Nat.eqb (length nc.2) (length c)) cols
      then Ok cols else Raise ValueError
  end.

Fixpoint df_lookup (df : DataFrame) (name : string) : option column :=
  match df with
  | [] => None
  | (n, c) :: rest => if decide (n = name) then Some c else df_lookup rest name
  end.

(** [df[name]] *)
Definition df_get (df : DataFrame) (name : string) : result column :=
  match df_lookup df name with
  | Some c => Ok c
  | None => Raise (KeyError [name])
  end.

(** [df[name] = col]: replaces the column in place, or appends a new one. *)
Fixpoint df_set (df : DataFrame) (name : string) (col : column) : DataFrame :=
  match df with
  | [] => [(name, col)]
  | (n, c) :: rest =>
      if decide (n = name) then (n, col) :: rest else (n, c) :: df_set rest name col
  end.

(** [df[name] = v] for a scalar [v]: broadcast over the rows. *)
Definition df_set_scalar (df : DataFrame) (name : string) (v : value) : DataFrame :=
  df_set df name (replicate (nrows df) v).

(** The names of a list, each once, in the order of their first
    occurrence. *)
Fixpoint unique (l : list string) : list string :=
  match l with
  | [] => []
  | x :: l => x :: filter (fun y => y <> x) (unique l)
  end.

(** [df[names]]: the named columns, in the order of [names]; [KeyError] with
    the requested names that are not columns, each once. *)
Definition df_select (df : DataFrame) (names : list string) : result DataFrame :=
  match filter (fun n => df_lookup df n = None) names with
  | [] => Ok (omap (fun n => (fun c => (n, c)) <$> df_lookup df n) names)
  | missing => Raise (KeyError (unique missing))
  end.

(** [pd.concat([a, b])]: the rows of [b] below the rows of [a], columns
    matched by name; a column that one frame lacks is filled with NaN. *)
Definition pd_concat (a b : DataFrame) : DataFrame :=
  ((fun '(n, c) => (n, c ++ default (replicate (nrows b) nan_value) (df_lookup b n))) <$> a)
  ++ ((fun '(n, c) => (n, replicate (nrows a) nan_value ++ c))
        <$> filter (fun nc => df_lookup a nc.1 = None) b).

(** [df.iloc[locs]]: the rows at the given positions. *)
Definition df_take (df : DataFrame) (locs : list nat) : DataFrame :=
  (fun '(n, c) => (n, (fun i => default nan_value (c !! i)) <$> locs)) <$> df.

(** The cell of column [name] at row [i]. *)
Definition cell (df : DataFrame) (name : string) (i : nat) : option value :=
  df_lookup df name ≫= (.!! i).

(** Row [i] as a dictionary from column names to cells. *)
Definition df_row (df : DataFrame) (i : nat) : gmap string value :=
  list_to_map (omap (fun '(n, c) => (fun v => (n, v)) <$> c !! i) df).

(** Elementwise column arithmetic. *)
Definition col_add_scalar (c : column) (v : value) : column :=
  (fun x => np_add x v) <$> c.
Definition col_add (a b : column) : column := zip_with np_add a b.
Definition col_div (a b : column) : column := zip_with np_true_divide a b.
Definition col_div_scalar (c : column) (v : value) : column :=
  (fun x => np_true_divide x v) <$> c.

(** ** Synthetic data (train_model.py, section 1) *)

(** The calls to [np.random] that the script makes. *)
Inductive dist : Type :=
| Lognormal (mean sigma : float)
| Choice (a : list Z) (p : option (list float))
| Poisson (lam : float)
| Exponential (scale : float)
| Beta (a b : float).

(** [range(lo, hi)] *)
Definition py_range (lo hi : Z) : list Z :=
  (fun i => lo + Z.of_nat i) <$> seq 0 (Z.to_nat (hi - lo)).

Definition legit_columns : list (string * dist) :=
  [ ("amount", Lognormal 4.0 1.2);
    ("hour_of_day", Choice (py_range 6 23) None);
    ("day_of_week", Choice (py_range 0 7) None);
    ("merchant_category", Choice (py_range 0 10) None);
    ("num_transactions_1h", Poisson 1.5);
    ("num_transactions_24h", Poisson 5);
    ("avg_amount_30d", Lognormal 3.8 0.9);
    ("distance_from_home", Exponential 20);
    ("is_online", Choice [0; 1] (Some [0.6; 0.4]%float));
    ("is_international", Choice [0; 1] (Some [0.95; 0.05]%float));
    ("card_present", Choice [0; 1] (Some [0.3; 0.7]%float));
    ("days_since_last_txn", Exponential 2);
    ("credit_limit_used_pct", Beta 2 8);
    ("velocity_score", Beta 2 10);
    ("geo_risk_score", Beta 1 15) ].

Definition fraud_columns : list (string * dist) :=
  [ ("amount", Lognormal 5.5 1.5);
    ("hour_of_day", Choice (py_range 0 6 ++ py_range 22 24) None);
    ("day_of_week", Choice (py_range 0 7) None);
    ("merchant_category", Choice (py_range 0 10) None);
    ("num_transactions_1h", Poisson 4.5);
    ("num_transactions_24h", Poisson 12);
    ("avg_amount_30d", Lognormal 3.2 0.8);
    ("distance_from_home", Exponential 200);
    ("is_online", Choice [0; 1] (Some [0.3; 0.7]%float));
    ("is_international", Choice [0; 1] (Some [0.5; 0.5]%float));
    ("card_present", Choice [0; 1] (Some [0.7; 0.3]%float));
    ("days_since_last_txn", Exponential 0.5);
    ("credit_limit_used_pct", Beta 8 2);
    ("velocity_score", Beta 8 2);
    ("geo_risk_score", Beta 8 2) ].

(** The constants of the script. *)
Definition SEED : Z := 42.
Definition N : Z := 50000.
Definition FRAUD_RATE : float := 0.02.

(** [n_fraud = int(N * FRAUD_RATE)] *)
Definition n_fraud_of (N : Z) (FRAUD_RATE : float) : result Z :=
  py_mul_int_float N FRAUD_RATE ≫= py_int.

Section Generator.
(** The pseudo-random generator is a parameter: [rng] is the state of
    numpy's global generator, [np_seed s g] its state after
    [np.random.seed(s)] is called in state [g], [draw d n g] the array of [n]
    samples of [d] drawn from state [g] with the state that follows, and
    [sample_locs s n] the order in which
    [DataFrame.sample(frac=1, random_state=s)] takes the [n] rows (it uses a
    generator of its own, seeded with [s]). *)
Context {rng : Type}.
Variable np_seed : Z -> rng -> rng.
Variable draw : dist -> nat -> rng -> column * rng.
Variable sample_locs : Z -> nat -> list nat.

(** [np.random.<dist>(..., n)]: a negative size is refused. *)
Definition np_random (d : dist) (n : Z) (g : rng) : result (column * rng) :=
  if n <? 0 then Raise ValueError else Ok (draw d (Z.to_nat n) g).

(** The values of a dictionary display are evaluated in order, each call
    advancing the global generator. *)
Fixpoint draw_columns (spec : list (string * dist)) (n : Z) (g : rng)
  : result (list (string * column) * rng) :=
  match spec with
  | [] => Ok ([], g)
  | (name, d) :: rest =>
      '(c, g1) ← np_random d n g;
      '(cs, g2) ← draw_columns rest n g1;
      Ok ((name, c) :: cs, g2)
  end.

Definition make_legit (n : Z) (g : rng) : result (DataFrame * rng) :=
  '(cols, g') ← draw_columns legit_columns n g;
  df ← pd_DataFrame cols;
  Ok (df, g').

Definition make_fraud (n : Z) (g : rng) : result (DataFrame * rng) :=
  '(cols, g') ← draw_columns fraud_columns n g;
  df ← pd_DataFrame cols;
  Ok (df, g').

(** [df.sample(frac=1, random_state=s).reset_index(drop=True)] *)
Definition sample_all (df : DataFrame) (s : Z) : DataFrame :=
  df_take df (sample_locs s (nrows df)).

(** Lines 22 to 72 of the script, as a function of the seed, the row count
    and the fraud rate; [g0] is the state of the global generator when the
    script starts, which the first statement reseeds. *)
Definition generate (seed : Z) (N : Z) (FRAUD_RATE : float) (g0 : rng)
  : result DataFrame :=
  let g := np_seed seed g0 in
  n_fraud ← n_fraud_of N FRAUD_RATE;
  let n_legit := N - n_fraud in
  '(df_legit, g) ← make_legit n_legit g;
  let df_legit := df_set_scalar df_legit "is_fraud" (VInt 0) in
  '(df_fraud, g) ← make_fraud n_fraud g;
  let df_fraud := df_set_scalar df_fraud "is_fraud" (VInt 1) in
  Ok (sample_all (pd_concat df_legit df_fraud) seed).
End Generator.

(** ** Feature engineering at training time (train_model.py, lines 74-88) *)

Definition FEATURES : list string :=
  [ "amount"; "hour_of_day"; "day_of_week"; "merchant_category";
    "num_transactions_1h"; "num_transactions_24h"; "avg_amount_30d";
    "distance_from_home"; "is_online"; "is_international"; "card_present";
    "days_since_last_txn"; "credit_limit_used_pct"; "velocity_score";
    "geo_risk_score"; "amount_to_avg_ratio"; "txn_burst"; "risk_composite" ].

Definition add_derived (df : DataFrame) : result DataFrame :=
  amount ← df_get df "amount";
  avg ← df_get df "avg_amount_30d";
  let df := df_set df "amount_to_avg_ratio"
              (col_div amount (col_add_scalar avg (VInt 1))) in
  n1h ← df_get df "num_transactions_1h";
  n24h ← df_get df "num_transactions_24h";
  let df := df_set df "txn_burst"
              (col_div n1h (col_add_scalar n24h (VInt 1))) in
  vel ← df_get df "velocity_score";
  geo ← df_get df "geo_risk_score";
  let df := df_set df "risk_composite"
              (col_div_scalar (col_add vel geo) (VInt 2)) in
  Ok df.

(** The three derived cells of one row, as the column arithmetic computes
    them. *)
Definition train_ratio (amount avg_amount_30d : value) : value :=
  np_true_divide amount (np_add avg_amount_30d (VInt 1)).
Definition train_burst (n1h n24h : value) : value :=
  np_true_divide n1h (np_add n24h (VInt 1)).
Definition train_composite (vel geo : value) : value :=
  np_true_divide (np_add vel geo) (VInt 2).

Section Training.
Context {rng : Type}.
Variable np_seed : Z -> rng -> rng.
Variable draw : dist -> nat -> rng -> column * rng.
Variable sample_locs : Z -> nat -> list nat.

(** The script up to [X = df[FEATURES]] and [y = df['is_fraud']].  It reads
    neither its command line [argv] nor the environment: the seed, [N] and
    [FRAUD_RATE] are the constants above. *)
Definition training_data (argv : list string) (g0 : rng)
  : result (DataFrame * column) :=
  df ← generate np_seed draw sample_locs SEED N FRAUD_RATE g0;
  df ← add_derived df;
  X ← df_select df FEATURES;
  y ← df_get df "is_fraud";
  Ok (X, y).

(** The row count and fraud rate a run of the script uses. *)
Definition training_parameters (argv : list string) : Z * float :=
  (N, FRAUD_RATE).
End Training.

(** ** Scoring (app.py) *)

(** The objects that training persists with [joblib.dump].  The fitted scaler
    and classifier are opaque: only the methods the application calls are
    kept. *)
Record Scaler : Type := {
  transform : list (string * value) -> result (list float)
}.
Record Model : Type := {
  predict_proba : list float -> result (float * float);
  feature_importances_ : list float
}.
Inductive pyobj : Type :=
| PModel (m : Model)
| PScaler (s : Scaler)
| PNames (l : list string).

(** Calling a method on, or indexing with, an object of another kind fails;
    one error stands for these failures. *)
Definition as_model (o : pyobj) : result Model :=
  match o with PModel m => Ok m | _ => Raise AttributeError end.
Definition as_scaler (o : pyobj) : result Scaler :=
  match o with PScaler s => Ok s | _ => Raise AttributeError end.
Definition as_names (o : pyobj) : result (list string) :=
  match o with PNames l => Ok l | _ => Raise AttributeError end.

(** The files of the working directory. *)
Definition joblib_load (fs : gmap string pyobj) (path : string) : result pyobj :=
  match fs !! path with
  | Some o => Ok o
  | None => Raise (FileNotFoundError path)
  end.

Definition load_artifacts (fs : gmap string pyobj) : result (pyobj * pyobj * pyobj) :=
  model ← joblib_load fs "fraud_model.joblib";
  scaler ← joblib_load fs "scaler.joblib";
  features ← joblib_load fs "feature_names.joblib";
  Ok (model, scaler, features).

(** The widgets of the sidebar. *)
Record inputs : Type := {
  amount : float;
  hour_of_day : Z;
  day_of_week : string;
  days_since : float;
  merchant_cat : Z;
  distance : float;
  is_online : bool;
  is_intl : bool;
  card_present : bool;
  num_txn_1h : Z;
  num_txn_24h : Z;
  avg_amt_30d : float;
  credit_pct : float;
  velocity_sc : float;
  geo_risk_sc : float
}.

Definition dow_map : gmap string Z :=
  list_to_map [("Mon", 0); ("Tue", 1); ("Wed", 2); ("Thu", 3); ("Fri", 4);
               ("Sat", 5); ("Sun", 6)].

Definition dict_get {A} (d : gmap string A) (k : string) : result A :=
  match d !! k with
  | Some v => Ok v
  | None => Raise (KeyError [k])
  end.

Definition int_of_bool (b : bool) : Z := if b then 1 else 0.

(** The three derived features, as the application computes them. *)
Definition amount_to_avg (i : inputs) : result value :=
  py_add (VFloat (avg_amt_30d i)) (VInt 1) ≫= py_truediv (VFloat (amount i)).
Definition txn_burst (i : inputs) : result value :=
  py_add (VInt (num_txn_24h i)) (VInt 1) ≫= py_truediv (VInt (num_txn_1h i)).
Definition risk_comp (i : inputs) : result value :=
  s ← py_add (VFloat (velocity_sc i)) (VFloat (geo_risk_sc i));
  py_truediv s (VInt 2).

Definition input_data (i : inputs) : result (gmap string value) :=
  amount_to_avg ← amount_to_avg i;
  txn_burst ← txn_burst i;
  risk_comp ← risk_comp i;
  dow ← dict_get dow_map (day_of_week i);
  Ok (list_to_map
    [ ("amount", VFloat (amount i));
      ("hour_of_day", VInt (hour_of_day i));
      ("day_of_week", VInt dow);
      ("merchant_category", VInt (merchant_cat i));
      ("num_transactions_1h", VInt (num_txn_1h i));
      ("num_transactions_24h", VInt (num_txn_24h i));
      ("avg_amount_30d", VFloat (avg_amt_30d i));
      ("distance_from_home", VFloat (distance i));
      ("is_online", VInt (int_of_bool (is_online i)));
      ("is_international", VInt (int_of_bool (is_intl i)));
      ("card_present", VInt (int_of_bool (card_present i)));
      ("days_since_last_txn", VFloat (days_since i));
      ("credit_limit_used_pct", VFloat (credit_pct i));
      ("velocity_score", VFloat (velocity_sc i));
      ("geo_risk_score", VFloat (geo_risk_sc i));
      ("amount_to_avg_ratio", amount_to_avg);
      ("txn_burst", txn_burst);
      ("risk_composite", risk_comp) ]).

(** [pd.DataFrame([d])[names]]: the one-row frame of the dictionary [d],
    restricted to the columns [names] in that order; [KeyError] with the
    requested names that are not keys, each once. *)
Definition input_df (d : gmap string value) (names : list string)
  : result (list (string * value)) :=
  match filter (fun n => d !! n = None) names with
  | [] => Ok (omap (fun n => (fun v => (n, v)) <$> d !! n) names)
  | missing => Raise (KeyError (unique missing))
  end.

(** [int(prob_fraud > 0.5)] *)
Definition prediction (prob_fraud : float) : Z :=
  int_of_bool (0.5 <? prob_fraud)%float.

Definition risk (prob_fraud : float) : string * string :=
  if (prob_fraud <? 0.2)%float then ("LOW", "#10b981")
  else if (prob_fraud <? 0.5)%float then ("MODERATE", "#f59e0b")
  else if (prob_fraud <? 0.8)%float then ("HIGH", "#ef4444")
  else ("CRITICAL", "#dc2626").
Definition risk_tier (prob_fraud : float) : string := (risk prob_fraud).1.
Definition risk_color (prob_fraud : float) : string := (risk prob_fraud).2.

(** What one scoring of the sidebar values yields. *)
Record score : Type := {
  vector : list (string * value);
  prob_fraud : float;
  prob_safe : float;
  decision : Z;
  tier : string
}.

(** Lines 470 to 505: build the vector, scale, classify, decide. *)
Definition score_transaction (model scaler features : pyobj) (i : inputs)
  : result score :=
  d ← input_data i;
  names ← as_names features;
  df ← input_df d names;
  sc ← as_scaler scaler;
  input_sc ← transform sc df;
  m ← as_model model;
  prob ← predict_proba m input_sc;
  Ok {| vector := df; prob_fraud := prob.2; prob_safe := prob.1;
        decision := prediction prob.2; tier := risk_tier prob.2 |}.

(** What a run of the application does up to the score (line 505), in
    order: the page elements it shows, and the score it hands to the rest of
    the page. *)
Inductive ui_event : Type :=
| StMarkdown (what : string)
| StError (msg : string)
| StCode (code : string)
| StSidebar
| StResult (s : score).

(** How this part of the run ends: with a score ([Scored]), the rest of the
    page being drawn from it; at [st.stop()]; or with an exception. *)
Inductive outcome : Type :=
| Scored
| Stopped
| Crashed (e : exn).

Definition model_missing_msg : string :=
  "⚠️ Model files not found. Please run `python train_model.py` first.".

(** One run of the script, from its start to the score of line 505; what
    the page draws from the score afterwards is described by [flags],
    [flag_rows] and [feature_bars] below, and can still fail there.  Only
    [FileNotFoundError] is caught around [load_artifacts]; any other
    exception ends the run where it is raised. *)
Definition run_app (fs : gmap string pyobj) (i : inputs) : list ui_event * outcome :=
  match load_artifacts fs with
  | Raise (FileNotFoundError _) =>
      ([StMarkdown "css"; StMarkdown "hero";
        StError model_missing_msg; StCode "python train_model.py"], Stopped)
  | Raise e => ([], Crashed e)
  | Ok (model, scaler, features) =>
      let shown := [StMarkdown "css"; StMarkdown "hero"; StSidebar] in
      match score_transaction model scaler features i with
      | Ok s => (shown ++ [StResult s], Scored)
      | Raise e => (shown, Crashed e)
      end
  end.

(** ** Notions used in the statements *)

(** Python's [round(x)] for a float, following the specification's
    [round(N * rate)]: the nearest integer, ties to the even one. *)
Definition round_half_even (m e : Z) : Z :=
  if 0 <=? e then m * 2 ^ e
  else
    let q := m / 2 ^ (- e) in
    match 2 * (m mod 2 ^ (- e)) ?= 2 ^ (- e) with
    | Lt => q
    | Gt => q + 1
    | Eq => if Z.even q then q else q + 1
    end.

Definition py_round (x : float) : result Z :=
  match Prim2SF x with
  | S754_nan => Raise ValueError
  | S754_infinity _ => Raise OverflowError
  | S754_zero _ => Ok 0
  | S754_finite s m e => Ok (cond_Zopp s (round_half_even (Z.pos m) e))
  end.

(** The number of cells of a label column that hold the integer [z]. *)
Definition is_label (z : Z) (v : value) : bool :=
  match v with
  | VInt x => x =? z
  | VFloat _ => false
  end.

Definition count_label (z : Z) (c : column) : nat :=
  length (filter (fun v => is_label z v) c).

(** The label column before the shuffle (the legitimate rows, then the
    fraud rows), and a column read in a given order of row positions, as
    [df_take] reads every column. *)
Definition labels_in_order (n_legit n_fraud : Z) : column :=
  replicate (Z.to_nat n_legit) (VInt 0) ++ replicate (Z.to_nat n_fraud) (VInt 1).

Definition take_rows (c : column) (locs : list nat) : column :=
  (fun i => default nan_value (c !! i)) <$> locs.

(** The fifteen raw fields. *)
Definition RAW_FIELDS : list string := take 15 FEATURES.

(** The quotient of two Python integers against numpy's [float64] quotient,
    for the values of the two transaction-count sliders. *)
Definition burst_agrees (a b : Z) : bool :=
  match py_truediv_int a (b + 1) with
  | Ok q => PrimFloat.Leibniz.eqb q (np_float64 a / np_float64 (wrap64 (b + 1)))
            && PrimFloat.Leibniz.eqb q (np_float64 a / np_float64 (b + 1))
  | Raise _ => false
  end.

(** The record of the specification's end-to-end example, and a one-row
    frame holding the same raw values. *)
Definition example_inputs : inputs :=
  {| amount := 120; hour_of_day := 14; day_of_week := "Tue"; days_since := 2;
     merchant_cat := 0; distance := 15; is_online := false; is_intl := false;
     card_present := true; num_txn_1h := 1; num_txn_24h := 4; avg_amt_30d := 85;
     credit_pct := 0.2; velocity_sc := 0.1; geo_risk_sc := 0.05 |}.

Definition example_frame : DataFrame :=
  [ ("amount", [VFloat 120]); ("num_transactions_1h", [VInt 1]);
    ("num_transactions_24h", [VInt 4]); ("avg_amount_30d", [VFloat 85]);
    ("velocity_score", [VFloat 0.1]); ("geo_risk_score", [VFloat 0.05]) ].

(** A small deterministic generator, used to run the script on concrete
    inputs: the state is a counter that seeding sets to the seed, a draw of
    [n] samples yields the next [n] counter values, and sampling takes the
    rows in reverse order. *)
Definition demo_seed (s : Z) (g : Z) : Z := s.
Definition demo_draw (d : dist) (n : nat) (g : Z) : column * Z :=
  ((fun i => VInt (g + Z.of_nat i)) <$> seq 0 n, g + Z.of_nat n).
Definition demo_locs (s : Z) (n : nat) : list nat := reverse (seq 0 n).

(** A stand-in for a fitted classifier, with one importance per feature. *)
Definition demo_model : Model :=
  {| predict_proba := fun _ => Ok (0.25, 0.75)%float;
     feature_importances_ := replicate 18 0.05%float |}.

(** Frames whose columns all have [k] cells. *)
Definition frame_ok (k : nat) (df : DataFrame) : Prop :=
  Forall (fun nc => length nc.2 = k) df.

(** ** Shifting a mantissa right, as [SpecFloat.shr] does

    [inexact mrs] tells whether bits were lost so far; [shr_rel n a b] relates
    a shift record to the record [n] one-bit shifts later. *)
Definition inexact (mrs : shr_record) : bool := shr_r mrs || shr_s mrs.

Record shr_rel (n : Z) (a b : shr_record) : Prop := {
  shr_rel_m : shr_m b = shr_m a / 2 ^ n;
  shr_rel_pos : 0 <= shr_m b;
  shr_rel_inexact : inexact b = inexact a || negb (shr_m a mod 2 ^ n =? 0)
}.

(** ** What the page shows for a score (app.py, lines 507-709) *)




(** The position of a tier on the scale from LOW to CRITICAL. *)
Definition tier_rank (risk_tier : string) : nat :=
  if bool_decide (risk_tier = "LOW") then 0
  else if bool_decide (risk_tier = "MODERATE") then 1
  else if bool_decide (risk_tier = "HIGH") then 2
  else 3.


(** The colour of each flag level. *)
Definition level_color : gmap string string :=
  list_to_map [("HIGH", "#ef4444"); ("MED", "#f59e0b"); ("LOW", "#10b981")].

(** The display names of the features. *)
Definition label_map : gmap string string :=
  list_to_map
    [ ("risk_composite", "Risk Composite"); ("geo_risk_score", "Geo Risk Score");
      ("velocity_score", "Velocity Score"); ("credit_limit_used_pct", "Credit Limit Used");
      ("num_transactions_24h", "Txns 24h"); ("hour_of_day", "Hour of Day");
      ("distance_from_home", "Distance Home"); ("num_transactions_1h", "Txns 1h");
      ("amount_to_avg_ratio", "Amt/Avg Ratio"); ("amount", "Amount");
      ("is_international", "Is International"); ("avg_amount_30d", "Avg Amt 30d");
      ("days_since_last_txn", "Days Since Txn"); ("txn_burst", "Txn Burst");
      ("day_of_week", "Day of Week"); ("is_online", "Is Online");
      ("card_present", "Card Present"); ("merchant_category", "Merchant Cat") ].

(** [pd.Series(values, index=names)]: the two must have one length. *)
Definition pd_Series (values : list float) (names : list string)
  : result (list (string * float)) :=
  if Nat.eqb (length values) (length names) then Ok (zip names values)
  else Raise ValueError.

(** [s.max()]: the largest value, NaN being skipped; NaN for an empty
    series. *)
Definition series_max (s : list (string * float)) : float :=
  foldl (fun acc x =>
           if is_nan x then acc
           else if is_nan acc then x
           else if (acc <? x)%float then x else acc) nan s.*2.

Section Report.
(** Two library functions are parameters: [format_float spec x] is
    [format(x, spec)], and [sort_values s] is
    [s.sort_values(ascending=False)]. *)
Variable format_float : string -> float -> string.
Variable sort_values : list (string * float) -> list (string * float).

(** The risk factors listed under the result: level, message, icon. *)
Definition flags (prob_fraud : float) (i : inputs) : list (string * string * string) :=
  if (0.5 <? prob_fraud)%float then
    (if (avg_amt_30d i * 2 <? amount i)%float
     then [("HIGH", "Amount is 2× above 30-day average", "💰")] else [])
    ++ (if hour_of_day i <? 6
        then [("MED", "Transaction at unusual hour (midnight-6AM)", "🌙")] else [])
    ++ (if is_intl i
        then [("MED", "International transaction detected", "🌍")] else [])
    ++ (if (200 <? distance i)%float
        then [("HIGH", "Far from home: " +:+ format_float ".0f" (distance i) +:+ " km", "📍")]
        else [])
    ++ (if 5 <? num_txn_1h i
        then [("HIGH", "Velocity burst: " +:+ pretty (num_txn_1h i) +:+ " txns in 1h", "⚡")]
        else [])
    ++ (if (0.7 <? velocity_sc i)%float
        then [("HIGH", "High velocity score: " +:+ format_float ".2f" (velocity_sc i), "🚀")]
        else [])
    ++ (if (0.7 <? geo_risk_sc i)%float
        then [("HIGH", "High geo risk: " +:+ format_float ".2f" (geo_risk_sc i), "🗺️")]
        else [])
    ++ (if (0.85 <? credit_pct i)%float
        then [("MED", "Near credit limit: "
                      +:+ format_float ".0f" (credit_pct i * 100) +:+ "% used", "💳")]
        else [])
  else [("LOW", "No significant fraud indicators detected", "✅")].

(** The rows of the risk-factor table: icon, colour, level, message. *)
Definition flag_rows (fl : list (string * string * string))
  : result (list (string * string * string * string)) :=
  mapM (fun '(level, msg, icon) =>
          color ← dict_get level_color level; Ok (icon, color, level, msg)) fl.

(** The bars of the feature-importance panel: display name, width in
    percent, value. *)
Definition feature_bars (m : Model) (FEATURES : list string)
  : result (list (string * float * float)) :=
  fi ← pd_Series (feature_importances_ m) FEATURES;
  let fi := sort_values fi in
  let max_fi := series_max fi in
  Ok ((fun '(feat, val) =>
         (default feat (label_map !! feat), (val / max_fi * 100)%float, val))
        <$> take 10 fi).
End Report.

(** * Facts about binary64 numbers *)

Ltac fold_pos_compare :=
  repeat match goal with
  | |- context [Pos.compare_cont Eq ?a ?b] =>
      change (Pos.compare_cont Eq a b) with (Pos.compare a b)
  | H : context [Pos.compare_cont Eq ?a ?b] |- _ =>
      change (Pos.compare_cont Eq a b) with (Pos.compare a b) in H
  end.

Lemma SFcompare_swap x y :
  SFcompare y x = CompOpp <$> SFcompare x y.
Proof.
  destruct x as [[]|[]| |[] mx ex], y as [[]|[]| |[] my ey]; simpl; try reflexivity.
  all: fold_pos_compare.
  all: rewrite (Z.compare_antisym ex ey), (Pos.compare_antisym mx my).
  all: destruct (ex ?= ey); simpl; try reflexivity.
  all: destruct (mx ?= my)%positive; reflexivity.
Qed.

Lemma SFltb_trans x y z :
  SFltb x y = true -> SFltb y z = true -> SFltb x z = true.
Proof.
  unfold SFltb.
  destruct x as [[]|[]| |[] mx ex], y as [[]|[]| |[] my ey], z as [[]|[]| |[] mz ez];
    simpl; try congruence.
  all: fold_pos_compare.
  all: destruct (Z.compare_spec ex ey); try congruence;
       destruct (Z.compare_spec ey ez); try congruence; subst.
  all: rewrite ?Z.compare_refl.
  all: try (assert ((ex ?= ez) = Lt) as -> by (apply Z.compare_lt_iff; lia)).
  all: try (assert ((ex ?= ez) = Gt) as -> by (apply Z.compare_gt_iff; lia)).
  all: try (assert ((ex ?= ey) = Lt) as -> by (apply Z.compare_lt_iff; lia)).
  all: try (assert ((ex ?= ey) = Gt) as -> by (apply Z.compare_gt_iff; lia)).
  all: try (assert ((ey ?= ez) = Lt) as -> by (apply Z.compare_lt_iff; lia)).
  all: try (assert ((ey ?= ez) = Gt) as -> by (apply Z.compare_gt_iff; lia)).
  all: try congruence.
  all: destruct (Pos.compare_spec mx my); simpl; try congruence;
       destruct (Pos.compare_spec my mz); simpl; try congruence; subst.
  all: try (assert ((mx ?= mz)%positive = Lt) as -> by (apply Pos.compare_lt_iff; lia)).
  all: try (assert ((mx ?= mz)%positive = Gt) as -> by (apply Pos.compare_gt_iff; lia)).
  all: try reflexivity.
Qed.

Lemma digits2_pos_size p : digits2_pos p = Pos.size p.
Proof. induction p; simpl; congruence. Qed.

Lemma Zdigits2_log2 m : 0 < m -> Zdigits2 m = Z.log2 m + 1.
Proof.
  destruct m as [|p|p]; try lia. intros _. simpl.
  rewrite digits2_pos_size. destruct p; simpl; lia.
Qed.

Lemma Zdigits2_bounds m :
  0 < m -> 2 ^ (Zdigits2 m - 1) <= m < 2 ^ Zdigits2 m.
Proof.
  intros Hm. rewrite Zdigits2_log2 by done.
  replace (Z.log2 m + 1 - 1) with (Z.log2 m) by lia.
  pose proof (Z.log2_spec m Hm). rewrite <- Z.add_1_r in H. done.
Qed.

Lemma Zdigits2_le m n : 0 < m -> 0 <= n -> m < 2 ^ n -> Zdigits2 m <= n.
Proof.
  intros Hm Hn Hlt. rewrite Zdigits2_log2 by done.
  assert (Z.log2 m < n); [|lia].
  apply Z.log2_lt_pow2; done.
Qed.

Lemma Zdigits2_nonneg m : 0 <= Zdigits2 m.
Proof. destruct m; simpl; lia. Qed.

Lemma shr_1_rel a : 0 <= shr_m a -> shr_rel 1 a (shr_1 a).
Proof.
  destruct a as [m r s]; cbn [shr_m]; intros Hm.
  assert (Hdiv : forall q b, 0 <= b < 2 -> (2 * q + b) / 2 ^ 1 = q).
  { intros q b Hb. change (2 ^ 1) with 2. 
    rewrite (Z.mul_comm 2), Z.div_add_l by lia. rewrite Z.div_small by lia. lia. }
  assert (Hmod : forall q b, 0 <= b < 2 -> (2 * q + b) mod 2 ^ 1 = b).
  { intros q b Hb. change (2 ^ 1) with 2.
    rewrite Z.add_comm, (Z.mul_comm 2), Z.mod_add by lia. apply Z.mod_small; lia. }
  assert (Hcase : exists q b, m = 2 * q + b /\ 0 <= q /\ (b = 0 \/ b = 1) /\
            shr_1 {| shr_m := m; shr_r := r; shr_s := s |}
            = {| shr_m := q; shr_r := negb (b =? 0); shr_s := r || s |}).
  { destruct m as [|[p|p|]|p]; try lia.
    - exists 0, 0. cbn. repeat split; lia.
    - exists (Z.pos p), 1. cbn. repeat split; lia.
    - exists (Z.pos p), 0. cbn. repeat split; lia.
    - exists 0, 1. cbn. repeat split; lia. }
  destruct Hcase as (q & b & -> & Hq & Hb & ->).
  split; unfold inexact; cbn [shr_m shr_r shr_s].
  - rewrite Hdiv by lia. reflexivity.
  - assumption.
  - rewrite Hmod by lia. destruct r, s, Hb as [-> | ->]; reflexivity.
Qed.

Lemma shr_rel_trans n1 n2 a b c :
  0 < n1 -> 0 < n2 ->
  shr_rel n1 a b -> shr_rel n2 b c -> shr_rel (n1 + n2) a c.
Proof.
  intros H1 H2 [Hm1 Hp1 Hi1] [Hm2 Hp2 Hi2].
  assert (0 < 2 ^ n1) by (apply Z.pow_pos_nonneg; lia).
  assert (0 < 2 ^ n2) by (apply Z.pow_pos_nonneg; lia).
  split.
  - rewrite Hm2, Hm1, Z.pow_add_r, Z.div_div by lia. reflexivity.
  - assumption.
  - rewrite Hi2, Hi1, Hm1, Z.pow_add_r by lia.
    rewrite Z.rem_mul_r by lia.
    pose proof (Z.mod_pos_bound (shr_m a) (2 ^ n1) ltac:(lia)) as B1.
    pose proof (Z.mod_pos_bound (shr_m a / 2 ^ n1) (2 ^ n2) ltac:(lia)) as B2.
    set (u := shr_m a mod 2 ^ n1) in *.
    set (v := (shr_m a / 2 ^ n1) mod 2 ^ n2) in *.
    set (w := 2 ^ n1) in *. clearbody u v w.
    destruct (inexact a); [reflexivity|]. cbn [orb].
    destruct (Z.eqb_spec u 0) as [Hu|Hu]; destruct (Z.eqb_spec v 0) as [Hv|Hv];
      cbn [negb orb]; destruct (Z.eqb_spec (u + w * v) 0); try reflexivity; nia.
Qed.

Lemma iter_shr_1_rel p a :
  0 <= shr_m a -> shr_rel (Z.pos p) a (SpecFloat.iter_pos shr_1 p a).
Proof.
  revert a. induction p as [p IH|p IH|]; intros a Ha; cbn [SpecFloat.iter_pos].
  - pose proof (shr_1_rel a Ha) as H1.
    pose proof (IH _ (shr_rel_pos _ _ _ H1)) as H2.
    pose proof (IH _ (shr_rel_pos _ _ _ H2)) as H3.
    replace (Z.pos p~1) with (1 + Z.pos p + Z.pos p) by lia.
    eapply shr_rel_trans; [lia|lia| |exact H3].
    eapply shr_rel_trans; [lia|lia|exact H1|exact H2].
  - pose proof (IH _ Ha) as H2.
    pose proof (IH _ (shr_rel_pos _ _ _ H2)) as H3.
    replace (Z.pos p~0) with (Z.pos p + Z.pos p) by lia.
    eapply shr_rel_trans; [lia|lia|exact H2|exact H3].
  - apply shr_1_rel; assumption.
Qed.

Lemma round_nearest_even_bounds mrs :
  shr_m mrs <= round_nearest_even (shr_m mrs) (loc_of_shr_record mrs)
            <= shr_m mrs + (if inexact mrs then 1 else 0).
Proof.
  destruct mrs as [m [] []]; unfold inexact; cbn; try lia.
  destruct (Z.even m); lia.
Qed.

(** shr on a non-negative mantissa with exact location *)
Lemma shr_exact_spec m e n :
  0 <= m ->
  let '(mrs, e') := shr (shr_record_of_loc m loc_Exact) e n in
  e' = e + Z.max n 0 /\
  shr_m mrs = m / 2 ^ (Z.max n 0) /\
  0 <= shr_m mrs /\
  inexact mrs = negb (m mod 2 ^ (Z.max n 0) =? 0).
Proof.
  intros Hm. destruct n as [|p|p]; cbn [shr shr_record_of_loc].
  - cbn. rewrite Z.div_1_r, Z.mod_1_r. repeat split; lia.
  - pose proof (iter_shr_1_rel p (Build_shr_record m false false) Hm) as [H1 H2 H3].
    rewrite Z.max_l by lia. cbn [shr_m] in *. repeat split; try assumption.
  - replace (Z.max (Z.neg p) 0) with 0 by lia.
    cbn. rewrite Z.div_1_r, Z.mod_1_r. repeat split; lia.
Qed.

Lemma fexp_unfold z : fexp prec emax z = Z.max (z - 53) (-1074).
Proof. reflexivity. Qed.

Lemma binary_round_aux_le s (P E X eX : Z) :
  0 < P -> E <= eX -> fexp prec emax (Zdigits2 P + E) <= eX ->
  P <= X * 2 ^ (eX - E) -> X < 2 ^ 53 -> eX <= 971 ->
  binary_round_aux prec emax s P E loc_Exact = S754_zero s \/
  exists m e, binary_round_aux prec emax s P E loc_Exact = S754_finite s m e /\
     E <= e <= eX /\ Z.pos m * 2 ^ (e - E) <= X * 2 ^ (eX - E).
Proof.
  intros HP HE Hfexp HPX HX HeX.
  unfold binary_round_aux, shr_fexp.
  set (k := fexp prec emax (Zdigits2 P + E) - E).
  pose proof (shr_exact_spec P E k ltac:(lia)) as H1.
  destruct (shr (shr_record_of_loc P loc_Exact) E k) as [mrs' e'].
  destruct H1 as (He' & Hm1 & Hm1pos & Hin1).
  pose proof (round_nearest_even_bounds mrs') as Hrne.
  set (m' := round_nearest_even (shr_m mrs') (loc_of_shr_record mrs')) in *.
  clearbody m'.
  set (K := Z.max k 0) in *.
  assert (HK : 0 <= K) by lia.
  assert (HKX : E + K <= eX) by lia.
  assert (H2K : 0 < 2 ^ K) by (apply Z.pow_pos_nonneg; lia).
  set (T' := X * 2 ^ (eX - E - K)).
  assert (HT : X * 2 ^ (eX - E) = T' * 2 ^ K).
  { unfold T'. rewrite <- Z.mul_assoc, <- Z.pow_add_r by lia. f_equal. f_equal. lia. }
  assert (Hm'T : m' <= T').
  { pose proof (Z.div_mod P (2 ^ K) ltac:(lia)) as Hdm.
    pose proof (Z.mod_pos_bound P (2 ^ K) ltac:(lia)) as Hmb.
    rewrite <- Hm1 in Hdm. rewrite Hin1 in Hrne.
    destruct (Z.eqb_spec (P mod 2 ^ K) 0) as [Hz|Hz]; cbn [negb] in Hrne; nia. }
  pose proof (shr_exact_spec m' e' (fexp prec emax (Zdigits2 m' + e') - e') ltac:(lia)) as H2.
  destruct (shr (shr_record_of_loc m' loc_Exact) e' (fexp prec emax (Zdigits2 m' + e') - e'))
    as [mrs'' e''].
  destruct H2 as (He'' & Hm2 & Hm2pos & _).
  set (K2 := Z.max (fexp prec emax (Zdigits2 m' + e') - e') 0) in *.
  assert (H2K2 : 0 < 2 ^ K2) by (apply Z.pow_pos_nonneg; lia).
  assert (He''X : e'' <= eX).
  { subst e'' K2. rewrite fexp_unfold in *.
    destruct (Z.eq_dec m' 0) as [Hz|Hnz].
    - rewrite Hz. cbn [Zdigits2]. lia.
    - assert (Zdigits2 m' <= 53 + eX - e'); [|lia].
      apply Zdigits2_le; [lia|lia|].
      apply Z.le_lt_trans with (1 := Hm'T). unfold T'.
      replace (eX - E - K) with (eX - e') by lia.
      assert (0 < 2 ^ (eX - e')) by (apply Z.pow_pos_nonneg; lia). 
      replace (53 + eX - e') with (53 + (eX - e')) by lia. rewrite Z.pow_add_r by lia. nia. }
  assert (Hbound : shr_m mrs'' * 2 ^ (e'' - E) <= X * 2 ^ (eX - E)).
  { rewrite HT. replace (e'' - E) with (K2 + K) by lia.
    rewrite Z.pow_add_r by lia.
    pose proof (Z.mul_div_le m' (2 ^ K2) ltac:(lia)) as Hmd.
    rewrite <- Hm2 in Hmd. nia. }
  destruct (shr_m mrs'') as [|m|m] eqn:Hm''; [left; reflexivity| |lia].
  right. exists m, e''. 
  replace (e'' <=? emax - prec) with true by (symmetry; apply Z.leb_le; change (emax - prec) with 971; lia).
  repeat split; try lia.
Qed.

Lemma binary_round_aux_exact s p E :
  fexp prec emax (Zdigits2 (Z.pos p) + E) <= E -> E <= 971 ->
  binary_round_aux prec emax s (Z.pos p) E loc_Exact = S754_finite s p E.
Proof.
  intros Hf HE. unfold binary_round_aux, shr_fexp.
  destruct (fexp prec emax (Zdigits2 (Z.pos p) + E) - E) as [|q|q] eqn:Hk; try lia.
  all: cbn [shr shr_record_of_loc shr_m loc_of_shr_record round_nearest_even].
  all: rewrite Hk; cbn [shr shr_record_of_loc shr_m].
  all: replace (E <=? emax - prec) with true; [reflexivity|].
  all: symmetry; apply Z.leb_le; change (emax - prec) with 971; lia.
Qed.

Lemma pos_iter_xO p d : Z.pos (Pos.iter xO p d) = Z.pos p * 2 ^ Z.pos d.
Proof.
  induction d as [|d IH] using Pos.peano_ind.
  - cbn. lia.
  - rewrite Pos.iter_succ, Pos2Z.inj_succ, Z.pow_succ_r, Pos2Z.inj_xO, IH by lia. lia.
Qed.

Lemma shl_align_spec mx ex ex' :
  snd (shl_align mx ex ex') = Z.min ex ex' /\
  Z.pos (fst (shl_align mx ex ex')) = Z.pos mx * 2 ^ (ex - Z.min ex ex').
Proof.
  unfold shl_align. destruct (ex' - ex) as [|d|d] eqn:Hd; cbn [fst snd].
  - rewrite Z.min_l by lia. rewrite Z.sub_diag. split; lia.
  - rewrite Z.min_l by lia. rewrite Z.sub_diag. split; lia.
  - rewrite Z.min_r by lia. rewrite pos_iter_xO. split; [lia|]. f_equal. f_equal. lia.
Qed.

Lemma Zdigits2_mul_pow2 m n : 0 < m -> 0 <= n -> Zdigits2 (m * 2 ^ n) = Zdigits2 m + n.
Proof.
  intros Hm Hn.
  assert (0 < 2 ^ n) by (apply Z.pow_pos_nonneg; lia).
  rewrite !Zdigits2_log2 by nia. rewrite Z.log2_mul_pow2 by lia. lia.
Qed.

(** Integers below 2^53 are converted exactly. *)
Lemma binary_normalize_exact N :
  0 < N < 2 ^ 53 ->
  exists m e, binary_normalize prec emax N 0 false = S754_finite false m e /\
    -52 <= e <= 0 /\ Z.pos m = N * 2 ^ (- e) /\ Z.pos m < 2 ^ 53 /\
    valid_binary (S754_finite false m e) = true.
Proof.
  intros [HN0 HN]. destruct N as [|p|p]; try lia.
  cbn [binary_normalize]. unfold binary_round.
  pose proof (Zdigits2_bounds (Z.pos p) ltac:(lia)) as Hd.
  pose proof (Zdigits2_le (Z.pos p) 53 ltac:(lia) ltac:(lia) HN) as Hd53.
  assert (Hd1 : 1 <= Zdigits2 (Z.pos p)).
  { cbn. lia. }
  change (Z.pos (digits2_pos p)) with (Zdigits2 (Z.pos p)).
  pose proof (shl_align_spec p 0 (fexp prec emax (Zdigits2 (Z.pos p) + 0))) as [He Hm].
  destruct (shl_align p 0 (fexp prec emax (Zdigits2 (Z.pos p) + 0))) as [mz ez].
  cbn [fst snd] in *. rewrite fexp_unfold in *.
  assert (Hez : ez = Zdigits2 (Z.pos p) - 53) by lia.
  replace (0 - Z.min 0 (Z.max (Zdigits2 (Z.pos p) + 0 - 53) (-1074))) with (- ez) in Hm by lia.
  assert (Hdz : Zdigits2 (Z.pos mz) = 53).
  { rewrite Hm, Zdigits2_mul_pow2 by lia. lia. }
  assert (Hfe : fexp prec emax (Zdigits2 (Z.pos mz) + ez) = ez).
  { rewrite fexp_unfold, Hdz. lia. }
  exists mz, ez. rewrite binary_round_aux_exact by lia.
  repeat split; try lia.
  - pose proof (Zdigits2_bounds (Z.pos mz) ltac:(lia)). rewrite Hdz in *. lia.
  - cbn [valid_binary]. unfold bounded, canonical_mantissa.
    change (Z.pos (digits2_pos mz)) with (Zdigits2 (Z.pos mz)).
    rewrite Hfe, Z.eqb_refl. cbn [andb]. apply Z.leb_le. change (emax - prec) with 971. lia.
Qed.

Lemma Prim2SF_zero : Prim2SF 0 = S754_zero false.
Proof. reflexivity. Qed.
Lemma Prim2SF_one : Prim2SF 1 = S754_finite false 4503599627370496 (-52).
Proof. reflexivity. Qed.


Lemma float_between_0_1 r :
  (0 <? r)%float = true -> (r <? 1)%float = true ->
  exists m e, Prim2SF r = S754_finite false m e /\ Zdigits2 (Z.pos m) + e <= 0 /\ -1074 <= e.
Proof.
  intros H0 H1.
  rewrite ltb_spec in H0.
  rewrite ltb_spec in H1.
  rewrite Prim2SF_zero in H0. 
  rewrite Prim2SF_one in H1.
  pose proof (Prim2SF_valid r) as Hv.
  destruct (Prim2SF r) as [s|s| |s m e]; unfold SFltb, SFcompare in H0, H1; try discriminate.
  - destruct s; discriminate.
  - destruct s; [discriminate|]. 
    exists m, e. split; [reflexivity|].
    cbn [valid_binary] in Hv. unfold bounded, canonical_mantissa in Hv.
    apply andb_prop in Hv as [Hc _]. apply Z.eqb_eq in Hc.
    change (Z.pos (digits2_pos m)) with (Zdigits2 (Z.pos m)) in *.
    rewrite fexp_unfold in Hc.
    revert H1. destruct (Z.compare_spec e (-52)) as [He|He|He]; intros H1; try discriminate.
    + subst e.
      assert (Hm : Z.pos m < 2 ^ 52).
      { change (2 ^ 52) with (Z.pos 4503599627370496). apply Pos2Z.pos_lt_pos.
        unfold Pos.lt, Pos.compare.
        destruct (PosDef.Pos.compare_cont Eq m 4503599627370496); congruence. }
      assert (Zdigits2 (Z.pos m) <= 52) by (apply Zdigits2_le; lia).
      lia.
    + lia.
Qed.


Lemma round_half_even_trunc m e :
  0 < m -> Z.shiftl m e <= round_half_even m e <= Z.shiftl m e + 1.
Proof.
  intros Hm. unfold round_half_even.
  destruct (Z.leb_spec 0 e) as [He|He].
  - rewrite Z.shiftl_mul_pow2 by lia. lia.
  - rewrite Z.shiftl_div_pow2 by lia.
    destruct (2 * (m mod 2 ^ (- e)) ?= 2 ^ (- e)); [destruct (Z.even _)| |]; lia.
Qed.

Lemma shiftl_le_of_scaled m e E n :
  0 < m -> 0 <= n -> E <= e -> E <= 0 ->
  m * 2 ^ (e - E) <= n * 2 ^ (- E) ->
  0 <= Z.shiftl m e <= n.
Proof.
  intros Hm Hn HeE HE Hle.
  assert (0 < 2 ^ (e - E)) by (apply Z.pow_pos_nonneg; lia).
  destruct (Z.le_gt_cases 0 e) as [He|He].
  - rewrite Z.shiftl_mul_pow2 by lia.
    assert (0 < 2 ^ e) by (apply Z.pow_pos_nonneg; lia).
    assert (0 < 2 ^ (- E)) by (apply Z.pow_pos_nonneg; lia).
    replace (e - E) with (e + - E) in Hle by lia.
    rewrite Z.pow_add_r in Hle by lia. split; [nia|].
    apply Z.mul_le_mono_pos_r with (p := 2 ^ (- E)); lia.
  - rewrite Z.shiftl_div_pow2 by lia.
    assert (0 < 2 ^ (- e)) by (apply Z.pow_pos_nonneg; lia).
    replace (- E) with (- e + (e - E)) in Hle by lia.
    rewrite Z.pow_add_r in Hle by lia.
    assert (m <= n * 2 ^ (- e)).
    { apply Z.mul_le_mono_pos_r with (p := 2 ^ (e - E)); lia. }
    split; [apply Z.div_pos; lia|].
    apply Z.div_le_upper_bound; lia.
Qed.

(** [int(N * r)] for a representable count and a rate strictly between 0
    and 1: defined, and between 0 and [N]. *)
Lemma py_int_mul_bound N r :
  0 < N < 2 ^ 53 ->
  (0 <? r)%float = true -> (r <? 1)%float = true ->
  exists x k k', py_mul_int_float N r = Ok x /\ py_int x = Ok k /\ 0 <= k <= N /\
     py_round x = Ok k' /\ k <= k' <= k + 1.
Proof.
  intros HN H0 H1.
  destruct (binary_normalize_exact N HN) as (mx & ex & Hx & Hex & Hmx & Hmx53 & Hvx).
  destruct (float_between_0_1 r H0 H1) as (mr & er & Hr & Hdr & Her).
  unfold py_mul_int_float, py_float. rewrite Hx. cbn [mbind result_bind].
  eexists. unfold py_int, py_round. rewrite mul_spec.
  rewrite Prim2SF_SF2Prim by exact Hvx. rewrite Hr.
  unfold SF64mul, SFmul. cbn [xorb].
  pose proof (Zdigits2_bounds (Z.pos mr) ltac:(lia)) as Hbr.
  pose proof (Zdigits2_bounds (Z.pos mx) ltac:(lia)) as Hbx.
  assert (Hd1 : 1 <= Zdigits2 (Z.pos mr)) by (cbn [Zdigits2]; lia).
  pose proof (Zdigits2_nonneg (Z.pos mx)) as Hnx.
  assert (Hmr : Z.pos mr <= 2 ^ (- er)).
  { apply Z.lt_le_incl, Z.lt_le_trans with (1 := proj2 Hbr).
    apply Z.pow_le_mono_r; lia. }
  assert (H2er : 0 < 2 ^ (- er)) by (apply Z.pow_pos_nonneg; lia).
  assert (H2ex : 0 < 2 ^ (- ex)) by (apply Z.pow_pos_nonneg; lia).
  assert (Hdig : Zdigits2 (Z.pos (mx * mr)) <= Zdigits2 (Z.pos mx) + Zdigits2 (Z.pos mr)).
  { apply Zdigits2_le; [lia|lia|]. rewrite Pos2Z.inj_mul, Z.pow_add_r by lia. nia. }
  assert (Hdx : Zdigits2 (Z.pos mx) <= 53) by (apply Zdigits2_le; lia).
  destruct (binary_round_aux_le false (Z.pos (mx * mr)) (ex + er) (Z.pos mx) ex)
    as [Hz | (m & e & Hf & He & Hle)]; try lia.
  - rewrite fexp_unfold. lia.
  - replace (ex - (ex + er)) with (- er) by lia. rewrite Pos2Z.inj_mul. nia.
  - rewrite Hz. exists 0, 0. repeat split; try reflexivity; lia.
  - rewrite Hf. cbn [cond_Zopp]. do 2 eexists. split; [reflexivity|]. split; [reflexivity|].
    split; [|split; [reflexivity|apply round_half_even_trunc; lia]].
    apply shiftl_le_of_scaled with (E := ex + er); try lia.
    replace (ex - (ex + er)) with (- er) in Hle by lia.
    replace (- (ex + er)) with (- ex + - er) by lia.
    rewrite Z.pow_add_r by lia. rewrite Z.mul_assoc, <- Hmx. exact Hle.
Qed.

(** * Decision rule and risk tier *)

Lemma ltb_trans (x y z : float) :
  (x <? y)%float = true -> (y <? z)%float = true -> (x <? z)%float = true.
Proof. rewrite 3 ltb_spec. apply SFltb_trans. Qed.

Lemma leb_iff_not_ltb (x y : float) :
  (x <=? y)%float = true <-> (y <? x)%float = false /\ (x =? x)%float = true /\ (y =? y)%float = true.
Proof.
  rewrite leb_spec, ltb_spec, 2 FloatAxioms.eqb_spec. unfold SFleb, SFltb, SFeqb.
  rewrite (SFcompare_swap (Prim2SF x) (Prim2SF y)).
  destruct (Prim2SF x) as [[]|[]| |[] mx ex] eqn:Hx, (Prim2SF y) as [[]|[]| |[] my ey] eqn:Hy;
    cbn; try (intuition congruence).
  all: fold_pos_compare; rewrite ?Z.compare_refl, ?Pos.compare_refl.
  all: repeat match goal with
       | |- context [(?a ?= ?b)%Z] => destruct (a ?= b)%Z; cbn
       | |- context [(?a ?= ?b)%positive] => destruct (a ?= b)%positive; cbn
       end; intuition congruence.
Qed.

Lemma ltb_not_nan_l (x y : float) : (x <? y)%float = true -> (x =? x)%float = true.
Proof.
  rewrite ltb_spec, FloatAxioms.eqb_spec. unfold SFltb, SFeqb.
  destruct (Prim2SF x) as [[]|[]| |[] mx ex], (Prim2SF y) as [[]|[]| |[] my ey]; cbn; try congruence.
  all: fold_pos_compare; rewrite ?Z.compare_refl, ?Pos.compare_refl; reflexivity.
Qed.

Lemma prediction_cases p :
  prediction p = (if (0.5 <? p)%float then 1 else 0).
Proof. unfold prediction. destruct (0.5 <? p)%float; reflexivity. Qed.

(** C2: the predicted class is fraud (1) exactly when the fraud probability
    is strictly greater than 0.5, and legitimate (0) otherwise; at 0.5 the
    class is 0 and at 0.5000001 it is 1.  The threshold is a constant of
    [prediction], which has no other argument than the probability. *)
Theorem decision_rule_strict (p : float) :
  (prediction p = 1 <-> (0.5 <? p)%float = true) /\
  (prediction p = 0 <-> (0.5 <? p)%float = false) /\
  prediction 0.5 = 0 /\ prediction 0.5000001 = 1.
Proof.
  rewrite prediction_cases.
  repeat split; try (destruct (0.5 <? p)%float; congruence || lia).
Qed.

(** C3: the tier is LOW below 0.2, MODERATE from 0.2 up to but excluding 0.5,
    HIGH from 0.5 up to but excluding 0.8, and CRITICAL otherwise (that is,
    when the probability is not below 0.8); 0.2 itself is MODERATE and 0.1999
    is LOW. *)
Theorem risk_tier_bands (p : float) :
  (risk_tier p = "LOW" <-> (p <? 0.2)%float = true) /\
  (risk_tier p = "MODERATE" <-> (0.2 <=? p)%float = true /\ (p <? 0.5)%float = true) /\
  (risk_tier p = "HIGH" <-> (0.5 <=? p)%float = true /\ (p <? 0.8)%float = true) /\
  (risk_tier p = "CRITICAL" <-> (p <? 0.8)%float = false) /\
  risk_tier 0.2 = "MODERATE" /\ risk_tier 0.1999 = "LOW".
Proof.
  assert (H25 : (0.2 <? 0.5)%float = true) by reflexivity.
  assert (H58 : (0.5 <? 0.8)%float = true) by reflexivity.
  assert (Hn2 : (0.2 =? 0.2)%float = true) by reflexivity.
  assert (Hn5 : (0.5 =? 0.5)%float = true) by reflexivity.
  pose proof (ltb_trans p 0.2 0.5) as T25.
  pose proof (ltb_trans p 0.5 0.8) as T58.
  pose proof (ltb_not_nan_l p 0.5) as Np5.
  pose proof (ltb_not_nan_l p 0.8) as Np8.
  rewrite 2 leb_iff_not_ltb.
  unfold risk_tier, risk.
  destruct (p <? 0.2)%float eqn:E2, (p <? 0.5)%float eqn:E5, (p <? 0.8)%float eqn:E8;
    cbn [fst];
    repeat split; intros; try discriminate; try tauto; try (intuition congruence).
Qed.

(** C10: a transaction classified as fraud is never shown with a LOW or
    MODERATE tier: its tier is HIGH or CRITICAL. *)
Theorem decision_consistent_with_tier (p : float) :
  prediction p = 1 -> risk_tier p = "HIGH" \/ risk_tier p = "CRITICAL".
Proof.
  rewrite prediction_cases. destruct (0.5 <? p)%float eqn:E; [intros _|discriminate].
  assert (H25 : (0.2 <? 0.5)%float = true) by reflexivity.
  pose proof (ltb_trans 0.2 0.5 p H25 E) as H2p.
  unfold risk_tier, risk.
  destruct (p <? 0.2)%float eqn:E2.
  - pose proof (ltb_trans p 0.2 0.5 E2 H25) as H. 
    pose proof (ltb_trans _ _ _ E H) as Hirr. discriminate Hirr.
  - destruct (p <? 0.5)%float eqn:E5.
    + pose proof (ltb_trans _ _ _ E E5) as Hirr. discriminate Hirr.
    + destruct (p <? 0.8)%float; cbn; tauto.
Qed.

Lemma decision_consistent_with_tier_witness :
  prediction 0.9 = 1 /\ (risk_tier 0.9 = "HIGH" \/ risk_tier 0.9 = "CRITICAL").
Proof.
  split; [reflexivity|]. apply (decision_consistent_with_tier 0.9). reflexivity.
Defined.

(** * Derived features *)

Lemma burst_agrees_sliders :
  forallb (fun a => forallb (burst_agrees a) (py_range 0 51)) (py_range 0 21) = true.
Proof. vm_compute. reflexivity. Qed.

Lemma in_py_range lo hi x : lo <= x < hi -> In x (py_range lo hi).
Proof.
  intros H. unfold py_range. apply list_elem_of_In, list_elem_of_fmap.
  exists (Z.to_nat (x - lo)). split; [lia|]. apply elem_of_seq. lia.
Qed.

Lemma py_float_1 : py_float 1 = Ok 1%float.
Proof. reflexivity. Qed.
Lemma py_float_2 : py_float 2 = Ok 2%float.
Proof. reflexivity. Qed.
Lemma np_float64_1 : np_float64 1 = 1%float.
Proof. reflexivity. Qed.
Lemma np_float64_2 : np_float64 2 = 2%float.
Proof. reflexivity. Qed.

Lemma txn_burst_sliders a b :
  0 <= a <= 20 -> 0 <= b <= 50 ->
  py_truediv_int a (b + 1) = Ok (np_float64 a / np_float64 (b + 1))%float /\
  wrap64 (b + 1) = b + 1.
Proof.
  intros Ha Hb.
  pose proof burst_agrees_sliders as H.
  rewrite forallb_forall in H. specialize (H a (in_py_range 0 21 a ltac:(lia))).
  rewrite forallb_forall in H. specialize (H b (in_py_range 0 51 b ltac:(lia))).
  unfold burst_agrees in H. split.
  - destruct (py_truediv_int a (b + 1)) as [q|]; [|discriminate].
    apply andb_prop in H as [_ H]. apply FloatAxioms.Leibniz.eqb_spec in H. congruence.
  - unfold wrap64. rewrite Z.mod_small; lia.
Qed.

(** Data-frame lookups *)
Lemma df_lookup_set_eq df n c : df_lookup (df_set df n c) n = Some c.
Proof.
  induction df as [|[n' c'] df IH]; cbn.
  - rewrite decide_True; done.
  - destruct (decide (n' = n)) as [->|Hne]; cbn.
    + rewrite decide_True; done.
    + rewrite decide_False; done.
Qed.

Lemma df_lookup_set_ne df n c n' : n <> n' -> df_lookup (df_set df n c) n' = df_lookup df n'.
Proof.
  intros Hne. induction df as [|[m c'] df IH]; cbn.
  - rewrite decide_False; done.
  - destruct (decide (m = n)) as [->|Hmn]; cbn.
    + rewrite !decide_False; done.
    + destruct (decide (m = n')); done.
Qed.

Lemma cell_set_eq df n c k : cell (df_set df n c) n k = c !! k.
Proof. unfold cell. rewrite df_lookup_set_eq. done. Qed.

Lemma cell_set_ne df n c n' k : n <> n' -> cell (df_set df n c) n' k = cell df n' k.
Proof. intros. unfold cell. rewrite df_lookup_set_ne; done. Qed.

Lemma cell_Some df n k v :
  cell df n k = Some v -> exists c, df_lookup df n = Some c /\ c !! k = Some v.
Proof. unfold cell. destruct (df_lookup df n) as [c|]; cbn; [eauto|done]. Qed.

Lemma add_derived_cells df k a v n1 n24 ve ge :
  cell df "amount" k = Some a -> cell df "avg_amount_30d" k = Some v ->
  cell df "num_transactions_1h" k = Some n1 -> cell df "num_transactions_24h" k = Some n24 ->
  cell df "velocity_score" k = Some ve -> cell df "geo_risk_score" k = Some ge ->
  exists df', add_derived df = Ok df' /\
    cell df' "amount_to_avg_ratio" k = Some (train_ratio a v) /\
    cell df' "txn_burst" k = Some (train_burst n1 n24) /\
    cell df' "risk_composite" k = Some (train_composite ve ge).
Proof.
  intros Ha Hv Hn1 Hn24 Hve Hge.
  destruct (cell_Some _ _ _ _ Ha) as (ca & La & Ka).
  destruct (cell_Some _ _ _ _ Hv) as (cv & Lv & Kv).
  destruct (cell_Some _ _ _ _ Hn1) as (c1 & L1 & K1).
  destruct (cell_Some _ _ _ _ Hn24) as (c24 & L24 & K24).
  destruct (cell_Some _ _ _ _ Hve) as (cve & Lve & Kve).
  destruct (cell_Some _ _ _ _ Hge) as (cge & Lge & Kge).
  unfold add_derived, df_get.
  rewrite La, Lv. cbn [mbind result_bind].
  rewrite !df_lookup_set_ne, L1, L24 by done. cbn [mbind result_bind].
  rewrite !df_lookup_set_ne, Lve, Lge by done. cbn [mbind result_bind].
  eexists; split; [reflexivity|].
  rewrite !cell_set_ne by done. rewrite cell_set_eq.
  rewrite !cell_set_ne by done. rewrite !cell_set_eq.
  unfold col_div, col_add_scalar, col_div_scalar, col_add.
  rewrite !lookup_zip_with, !list_lookup_fmap, !lookup_zip_with.
  rewrite Ka, Kv, K1, K24, Kve, Kge. done.
Qed.

(** C1: for a record whose two transaction counts are in the ranges of their
    sliders and whose [avg_amount_30d + 1] is not zero, the application
    computes [amount / (avg_amount_30d + 1)],
    [num_transactions_1h / (num_transactions_24h + 1)] and
    [(velocity_score + geo_risk_score) / 2], and the training script computes
    the same three cells for a row holding the same raw values. *)
Theorem derived_features_closed_form (i : inputs) (df : DataFrame) (k : nat) :
  0 <= num_txn_1h i <= 20 -> 0 <= num_txn_24h i <= 50 ->
  (avg_amt_30d i + 1 =? 0)%float = false ->
  cell df "amount" k = Some (VFloat (amount i)) ->
  cell df "avg_amount_30d" k = Some (VFloat (avg_amt_30d i)) ->
  cell df "num_transactions_1h" k = Some (VInt (num_txn_1h i)) ->
  cell df "num_transactions_24h" k = Some (VInt (num_txn_24h i)) ->
  cell df "velocity_score" k = Some (VFloat (velocity_sc i)) ->
  cell df "geo_risk_score" k = Some (VFloat (geo_risk_sc i)) ->
  let ratio := VFloat (amount i / (avg_amt_30d i + 1)) in
  let burst := VFloat (np_float64 (num_txn_1h i) / np_float64 (num_txn_24h i + 1)) in
  let composite := VFloat ((velocity_sc i + geo_risk_sc i) / 2) in
  amount_to_avg i = Ok ratio /\ txn_burst i = Ok burst /\ risk_comp i = Ok composite /\
  exists df', add_derived df = Ok df' /\
    cell df' "amount_to_avg_ratio" k = Some ratio /\
    cell df' "txn_burst" k = Some burst /\
    cell df' "risk_composite" k = Some composite.
Proof.
  intros H1 H24 Hden Ca Cv C1 C24 Cve Cge ratio burst composite.
  destruct (txn_burst_sliders _ _ H1 H24) as [Hdiv Hwrap].
  split; [|split; [|split]].
  - unfold amount_to_avg. cbn [py_add]. rewrite py_float_1. cbn [mbind result_bind py_truediv].
    unfold py_truediv_float. rewrite Hden. reflexivity.
  - unfold txn_burst. cbn [py_add mbind result_bind py_truediv]. rewrite Hdiv. reflexivity.
  - reflexivity.
  - destruct (add_derived_cells df k _ _ _ _ _ _ Ca Cv C1 C24 Cve Cge)
      as (df' & Hadd & R1 & R2 & R3).
    exists df'. split; [exact Hadd|].
    rewrite R1, R2, R3. unfold train_ratio, train_burst, train_composite, np_true_divide.
    cbn [np_add as_float64]. rewrite Hwrap, np_float64_1, np_float64_2. done.
Qed.

Lemma derived_features_closed_form_witness :
  amount_to_avg example_inputs = Ok (VFloat (120 / 86)) /\
  txn_burst example_inputs = Ok (VFloat 0.2) /\
  risk_comp example_inputs = Ok (VFloat ((0.1 + 0.05) / 2)) /\
  (abs ((0.1 + 0.05) / 2 - 0.075) <? 0x1p-52)%float = true /\
  exists df', add_derived example_frame = Ok df' /\
    cell df' "amount_to_avg_ratio" 0 = Some (VFloat (120 / 86)) /\
    cell df' "txn_burst" 0 = Some (VFloat 0.2) /\
    cell df' "risk_composite" 0 = Some (VFloat ((0.1 + 0.05) / 2)).
Proof.
  destruct (derived_features_closed_form example_inputs example_frame 0%nat)
    as (H1 & H2 & H3 & df' & H4 & H5 & H6 & H7); try reflexivity; try (cbn; lia).
  split; [exact H1|]. split; [exact H2|]. split; [exact H3|]. split; [reflexivity|].
  exists df'. split; [exact H4|]. split; [exact H5|]. split; [exact H6|exact H7].
Defined.

(** * The feature vector *)

Lemma omap_lookup_all {A} (d : gmap string A) (names : list string) :
  filter (fun n => d !! n = None) names = [] ->
  (omap (fun n => (fun v => (n, v)) <$> d !! n) names).*1 = names /\
  Forall (fun nv => d !! nv.1 = Some nv.2) (omap (fun n => (fun v => (n, v)) <$> d !! n) names).
Proof.
  induction names as [|n names IH]; [done|].
  rewrite filter_cons. destruct (decide (d !! n = None)) as [Hn|Hn]; [done|].
  intros Hf. destruct (IH Hf) as [IH1 IH2].
  destruct (d !! n) as [v|] eqn:Hd; [|done]. cbn. rewrite Hd. cbn. split.
  - by f_equal.
  - constructor; done.
Qed.

Lemma input_df_ok {d : gmap string value} {names v} :
  input_df d names = Ok v ->
  v.*1 = names /\ Forall (fun nv => d !! nv.1 = Some nv.2) v.
Proof.
  unfold input_df. destruct (filter _ names) eqn:Hf; [|done].
  intros [= <-]. by apply omap_lookup_all.
Qed.

Lemma elem_of_unique (l : list string) x : x ∈ unique l <-> x ∈ l.
Proof.
  induction l as [|y l IH]; [done|]. cbn [unique].
  rewrite !elem_of_cons, list_elem_of_filter, IH.
  destruct (decide (x = y)); tauto.
Qed.

Lemma NoDup_unique (l : list string) : NoDup (unique l).
Proof.
  induction l as [|y l IH]; [constructor|]. cbn [unique]. constructor.
  - rewrite list_elem_of_filter. tauto.
  - by apply NoDup_filter.
Qed.

Lemma input_df_missing (d : gmap string value) names n :
  n ∈ names -> d !! n = None ->
  exists missing, input_df d names = Raise (KeyError missing) /\ n ∈ missing /\
     NoDup missing /\ forall m, m ∈ missing <-> m ∈ names /\ d !! m = None.
Proof.
  intros Hin Hnone. unfold input_df.
  assert (Hn : n ∈ filter (fun n => d !! n = None) names) by (apply list_elem_of_filter; done).
  destruct (filter _ names) as [|m ms] eqn:Hf; [by apply elem_of_nil in Hn|].
  eexists; split; [reflexivity|]. split; [by apply elem_of_unique|].
  split; [apply NoDup_unique|].
  intros m'. rewrite elem_of_unique, <- Hf, list_elem_of_filter. tauto.
Qed.

Lemma input_df_total (d : gmap string value) names :
  (forall n, n ∈ names -> is_Some (d !! n)) -> exists v, input_df d names = Ok v.
Proof.
  intros Hall. unfold input_df.
  destruct (filter _ names) as [|m ms] eqn:Hf; [eauto|].
  assert (Hm : m ∈ filter (fun n => d !! n = None) names) by (rewrite Hf; left).
  apply list_elem_of_filter in Hm as [Hm1 Hm2].
  destruct (Hall m Hm2) as [? ?]; congruence.
Qed.

Lemma input_data_keys i d :
  input_data i = Ok d -> forall n, n ∈ FEATURES -> is_Some (d !! n).
Proof.
  unfold input_data.
  destruct (amount_to_avg i) as [r1|]; [|done].
  destruct (txn_burst i) as [r2|]; [|done].
  destruct (risk_comp i) as [r3|]; [|done].
  destruct (dict_get dow_map (day_of_week i)) as [dow|]; [|done].
  cbn [mbind result_bind]. intros [= <-] n Hn.
  unfold FEATURES in Hn. rewrite !elem_of_cons in Hn. rewrite elem_of_nil in Hn.
  repeat (destruct Hn as [->|Hn]; [vm_compute; eauto|]). done.
Qed.

(** C4: the eighteen feature names of training are distinct, and the vector
    the application assembles from its record carries exactly these names in
    this order, each with the value of the record; when a name of the
    persisted list is absent from the record, assembling raises [KeyError]
    with the absent names and the scoring fails with it. *)
Theorem feature_vector_matches_training (i : inputs) (d : gmap string value) :
  input_data i = Ok d ->
  length FEATURES = 18%nat /\ NoDup FEATURES /\
  (exists v, input_df d FEATURES = Ok v /\ v.*1 = FEATURES /\
      Forall (fun nv => d !! nv.1 = Some nv.2) v) /\
  (forall names n model scaler, n ∈ names -> d !! n = None ->
     exists missing, input_df d names = Raise (KeyError missing) /\ n ∈ missing /\
       score_transaction model scaler (PNames names) i = Raise (KeyError missing)).
Proof.
  intros Hd. split; [reflexivity|]. split; [|split].
  - unfold FEATURES. apply NoDup_ListNoDup. vm_compute. 
    repeat constructor; cbn; intuition discriminate.
  - destruct (input_df_total d FEATURES (input_data_keys i d Hd)) as [v Hv].
    exists v. split; [done|]. by apply input_df_ok.
  - intros names n model scaler Hin Hnone.
    destruct (input_df_missing d names n Hin Hnone) as (missing & Hm & Hnm & _ & _).
    exists missing. split; [done|]. split; [done|].
    unfold score_transaction. rewrite Hd. cbn [mbind result_bind as_names].
    rewrite Hm. reflexivity.
Qed.

Lemma feature_vector_matches_training_witness :
  exists d v, input_data example_inputs = Ok d /\
    input_df d FEATURES = Ok v /\ v.*1 = FEATURES.
Proof.
  destruct (input_data example_inputs) as [d|] eqn:Hd; [|discriminate Hd].
  destruct (feature_vector_matches_training example_inputs d Hd)
    as (_ & _ & (v & Hv & Hn & _) & _).
  exists d, v. split; [reflexivity|]. split; assumption.
Defined.

(** * The generator *)

Lemma pd_DataFrame_ok k cols : frame_ok k cols -> pd_DataFrame cols = Ok cols.
Proof.
  intros Hf. unfold pd_DataFrame. destruct cols as [|[n c] cols]; [done|].
  assert (Hc : length c = k) by (by inversion Hf).
  replace (forallb _ _) with true; [done|].
  symmetry. apply forallb_forall. intros [n' c'] Hin.
  apply list_elem_of_In in Hin. unfold frame_ok in Hf. rewrite Forall_forall in Hf.
  specialize (Hf _ Hin). cbn in *. apply Nat.eqb_eq. congruence.
Qed.

Lemma frame_ok_nrows k df : frame_ok k df -> df <> [] -> nrows df = k.
Proof. destruct df as [|[n c] df]; [done|]. intros Hf _. by inversion Hf. Qed.

Lemma frame_ok_lookup k df n c : frame_ok k df -> df_lookup df n = Some c -> length c = k.
Proof.
  induction df as [|[m c'] df IH]; [done|]. intros Hf. inversion Hf; subst. cbn.
  destruct (decide (m = n)); [intros [= <-]; done|auto].
Qed.

Lemma df_lookup_None df n : df_lookup df n = None <-> n ∉ df.*1.
Proof.
  induction df as [|[m c] df IH]; cbn.
  - split; [intros _; apply not_elem_of_nil|done].
  - rewrite not_elem_of_cons. destruct (decide (m = n)) as [->|Hne]; [split; [done|tauto]|].
    rewrite IH. split; [intros ?; split; congruence|tauto].
Qed.

Lemma df_set_fresh df n c : n ∉ df.*1 -> df_set df n c = df ++ [(n, c)].
Proof.
  induction df as [|[m c'] df IH]; [done|]. cbn. rewrite not_elem_of_cons. intros [Hne Hnin].
  rewrite decide_False by congruence. by rewrite IH.
Qed.

Lemma df_lookup_app df1 df2 n :
  df_lookup (df1 ++ df2) n =
  match df_lookup df1 n with Some c => Some c | None => df_lookup df2 n end.
Proof.
  induction df1 as [|[m c] df1 IH]; [done|]. cbn. destruct (decide (m = n)); done.
Qed.

Lemma filter_none {A} (P : A -> Prop) `{!forall x, Decision (P x)} (l : list A) :
  Forall (fun x => ~ P x) l -> filter P l = [].
Proof.
  induction 1 as [|x l Hx _ IH]; [done|]. rewrite filter_cons, decide_False by done. exact IH.
Qed.

Lemma df_lookup_is_Some df n : n ∈ df.*1 -> is_Some (df_lookup df n).
Proof.
  intros Hin. destruct (df_lookup df n) eqn:E; [eauto|].
  apply df_lookup_None in E. done.
Qed.

Lemma df_lookup_fmap (f : string -> column -> column) df n :
  df_lookup ((fun '(m, c) => (m, f m c)) <$> df) n = f n <$> df_lookup df n.
Proof.
  induction df as [|[m c] df IH]; [done|]. cbn.
  destruct (decide (m = n)) as [->|]; [done|exact IH].
Qed.

Lemma fmap_fst_relabel (f : string -> column -> column) (df : DataFrame) :
  ((fun '(m, c) => (m, f m c)) <$> df).*1 = df.*1.
Proof. induction df as [|[m c] df IH]; [done|]. cbn. by f_equal. Qed.

(** [pd.concat] of two frames with the same columns *)
Lemma pd_concat_same_columns a b ka kb :
  a.*1 = b.*1 -> frame_ok ka a -> frame_ok kb b ->
  (pd_concat a b).*1 = a.*1 /\ frame_ok (ka + kb) (pd_concat a b) /\
  forall n ca cb, df_lookup a n = Some ca -> df_lookup b n = Some cb ->
     df_lookup (pd_concat a b) n = Some (ca ++ cb).
Proof.
  intros Hab Ha Hb. unfold pd_concat.
  rewrite (filter_none (fun nc : string * column => df_lookup a nc.1 = None) b).
  2:{ apply Forall_forall. intros [n c] Hin Hnone. cbn in Hnone.
      apply df_lookup_None in Hnone. apply Hnone. rewrite Hab.
      apply list_elem_of_fmap. by exists (n, c). }
  rewrite fmap_nil, app_nil_r.
  split; [apply (fmap_fst_relabel (fun n c => c ++ default _ (df_lookup b n)))|].
  split.
  - unfold frame_ok in *. rewrite Forall_fmap. rewrite Forall_forall in Ha |- *.
    intros [n c] Hin. pose proof (Ha _ Hin) as Hc. cbn in Hc |- *.
    rewrite length_app, Hc. f_equal.
    destruct (df_lookup_is_Some b n) as [cb Hcb].
    { rewrite <- Hab. apply list_elem_of_fmap. by exists (n, c). }
    rewrite Hcb. cbn. by eapply frame_ok_lookup.
  - intros n ca cb Hca Hcb.
    rewrite (df_lookup_fmap (fun n c => c ++ default _ (df_lookup b n))), Hca, Hcb. done.
Qed.

Lemma df_take_spec df locs :
  (df_take df locs).*1 = df.*1 /\ frame_ok (length locs) (df_take df locs) /\
  forall n, df_lookup (df_take df locs) n
            = (fun c => (fun i => default nan_value (c !! i)) <$> locs) <$> df_lookup df n.
Proof.
  unfold df_take. split; [apply (fmap_fst_relabel (fun _ c => _ <$> locs))|]. split.
  - unfold frame_ok. rewrite Forall_fmap. apply Forall_forall. intros [n c] _. cbn.
    by rewrite length_fmap.
  - intros n. apply (df_lookup_fmap (fun _ c => _ <$> locs)).
Qed.

Lemma take_all_rows (c : column) :
  (fun i => default nan_value (c !! i)) <$> seq 0 (length c) = c.
Proof.
  apply list_eq. intros i. rewrite list_lookup_fmap.
  destruct (decide (i < length c)%nat) as [Hlt|Hge].
  - rewrite lookup_seq_lt by done. cbn.
    destruct (lookup_lt_is_Some_2 c i Hlt) as [v Hv]. by rewrite Hv.
  - rewrite lookup_seq_ge by lia. cbn. symmetry. apply lookup_ge_None. lia.
Qed.

Lemma take_permutation (c : column) locs :
  locs ≡ₚ seq 0 (length c) ->
  (fun i => default nan_value (c !! i)) <$> locs ≡ₚ c.
Proof. intros ->. by rewrite take_all_rows. Qed.

Lemma count_label_perm z (c c' : column) : c ≡ₚ c' -> count_label z c = count_label z c'.
Proof. intros H. unfold count_label. by rewrite H. Qed.

Lemma count_label_app z (c c' : column) :
  count_label z (c ++ c') = (count_label z c + count_label z c')%nat.
Proof. unfold count_label. by rewrite filter_app, length_app. Qed.

Lemma count_label_replicate z n x :
  count_label z (replicate n (VInt x)) = if decide (x = z) then n else 0%nat.
Proof.
  unfold count_label. induction n as [|n IH]; cbn [replicate].
  - by destruct (decide _).
  - rewrite filter_cons. cbn [is_label].
    destruct (decide (x = z)) as [->|Hne].
    + rewrite Z.eqb_refl, decide_True by done. cbn. by rewrite IH.
    + rewrite (proj2 (Z.eqb_neq x z)) by done. rewrite decide_False by (cbn; tauto). done.
Qed.

Section GeneratorFacts.
Context {rng : Type}.
Variable np_seed : Z -> rng -> rng.
Variable draw : dist -> nat -> rng -> column * rng.
Variable sample_locs : Z -> nat -> list nat.
Hypothesis draw_length : forall d n g, length (draw d n g).1 = n.
Hypothesis sample_locs_perm : forall s n, sample_locs s n ≡ₚ seq 0 n.

Lemma draw_columns_ok spec n g :
  0 <= n ->
  exists cols g', draw_columns draw spec n g = Ok (cols, g') /\
    cols.*1 = spec.*1 /\ frame_ok (Z.to_nat n) cols.
Proof.
  intros Hn. revert g. induction spec as [|[name d] spec IH]; intros g; cbn.
  - exists [], g. repeat split. constructor.
  - unfold np_random. destruct (Z.ltb_spec n 0) as [?|_]; [lia|].
    cbn [mbind result_bind]. destruct (draw d (Z.to_nat n) g) as [c g1] eqn:Hd.
    destruct (IH g1) as (cols & g2 & -> & Hnames & Hok).
    cbn [mbind result_bind]. exists ((name, c) :: cols), g2.
    split; [done|]. split; [cbn; by f_equal|].
    constructor; [|done]. cbn. pose proof (draw_length d (Z.to_nat n) g) as Hl.
    by rewrite Hd in Hl.
Qed.

Lemma draw_columns_negative spec n g :
  n < 0 -> spec <> [] -> draw_columns draw spec n g = Raise ValueError.
Proof.
  intros Hn Hs. destruct spec as [|[name d] spec]; [done|]. cbn. unfold np_random.
  destruct (Z.ltb_spec n 0); [done|lia].
Qed.

(** A frame of [n] rows drawn column by column, with its label column. *)
Lemma labelled_frame_ok spec n g z :
  0 <= n -> spec <> [] -> "is_fraud" ∉ spec.*1 ->
  exists cols g',
    (draw_columns draw spec n g ≫= fun '(cols, g') => df ← pd_DataFrame cols; Ok (df, g'))
      = Ok (cols, g') /\
    let df := df_set_scalar cols "is_fraud" (VInt z) in
    df = cols ++ [("is_fraud", replicate (Z.to_nat n) (VInt z))] /\
    df.*1 = spec.*1 ++ ["is_fraud"] /\ frame_ok (Z.to_nat n) df.
Proof.
  intros Hn Hs Hfresh.
  destruct (draw_columns_ok spec n g Hn) as (cols & g' & -> & Hnames & Hok).
  cbn [mbind result_bind]. rewrite (pd_DataFrame_ok _ _ Hok). cbn [mbind result_bind].
  exists cols, g'. split; [done|]. cbn zeta.
  assert (Hcols : cols <> []) by (intros ->; destruct spec; done).
  assert (Hdf : df_set_scalar cols "is_fraud" (VInt z)
                = cols ++ [("is_fraud", replicate (Z.to_nat n) (VInt z))]).
  { unfold df_set_scalar. rewrite df_set_fresh by (by rewrite Hnames).
    by rewrite (frame_ok_nrows _ _ Hok Hcols). }
  rewrite Hdf. split; [done|]. split.
  - by rewrite fmap_app, Hnames.
  - apply Forall_app. split; [done|]. constructor; [|constructor]. cbn.
    by rewrite length_replicate.
Qed.

Lemma raw_names_legit : legit_columns.*1 = RAW_FIELDS.
Proof. reflexivity. Qed.
Lemma raw_names_fraud : fraud_columns.*1 = RAW_FIELDS.
Proof. reflexivity. Qed.
Lemma is_fraud_not_raw : "is_fraud" ∉ RAW_FIELDS.
Proof. apply (bool_decide_unpack _). vm_compute. exact I. Qed.

Lemma labels_lookup (cols : DataFrame) (c : column) :
  "is_fraud" ∉ cols.*1 -> df_lookup (cols ++ [("is_fraud", c)]) "is_fraud" = Some c.
Proof.
  intros Hf. rewrite df_lookup_app. apply df_lookup_None in Hf. rewrite Hf. cbn.
  by rewrite decide_True.
Qed.

(** When both population sizes are non-negative the table is built, and its
    label column is the label column before the shuffle, read in the order
    of the shuffle. *)
Lemma generate_labels seed N r g0 k :
  n_fraud_of N r = Ok k -> 0 <= k <= N ->
  exists df,
    generate np_seed draw sample_locs seed N r g0 = Ok df /\
    columns df = RAW_FIELDS ++ ["is_fraud"] /\
    frame_ok (length (sample_locs seed (Z.to_nat N))) df /\
    df_lookup df "is_fraud"
      = Some (take_rows (labels_in_order (N - k) k) (sample_locs seed (Z.to_nat N))).
Proof.
  intros Hk Hrange. unfold generate. rewrite Hk. cbn [mbind result_bind].
  destruct (labelled_frame_ok legit_columns (N - k) (np_seed seed g0) 0)
    as (cl & g1 & Hl & Hdl & Hnl & Hokl); [lia|done|rewrite raw_names_legit; apply is_fraud_not_raw|].
  unfold make_legit. rewrite Hl. cbn [mbind result_bind].
  destruct (labelled_frame_ok fraud_columns k g1 1)
    as (cf & g2 & Hf & Hdf & Hnf & Hokf); [lia|done|rewrite raw_names_fraud; apply is_fraud_not_raw|].
  unfold make_fraud. rewrite Hf. cbn [mbind result_bind]. cbn zeta in *.
  set (dl := df_set_scalar cl "is_fraud" (VInt 0)) in *.
  set (df := df_set_scalar cf "is_fraud" (VInt 1)) in *.
  rewrite raw_names_legit in Hnl. rewrite raw_names_fraud in Hnf.
  destruct (pd_concat_same_columns dl df _ _ ltac:(congruence) Hokl Hokf)
    as (Hcn & Hcok & Hclk).
  set (D := pd_concat dl df) in *.
  assert (HD : D <> []).
  { intros HD. rewrite HD, Hnl in Hcn. done. }
  assert (Hrows : nrows D = Z.to_nat N).
  { rewrite (frame_ok_nrows _ _ Hcok HD). lia. }
  assert (Hll : df_lookup dl "is_fraud" = Some (replicate (Z.to_nat (N - k)) (VInt 0))).
  { rewrite Hdl. apply labels_lookup.
    assert (cl.*1 = RAW_FIELDS) as ->; [|apply is_fraud_not_raw].
    rewrite Hdl, fmap_app in Hnl. by apply app_inj_tail in Hnl as [? _]. }
  assert (Hlf : df_lookup df "is_fraud" = Some (replicate (Z.to_nat k) (VInt 1))).
  { rewrite Hdf. apply labels_lookup.
    assert (cf.*1 = RAW_FIELDS) as ->; [|apply is_fraud_not_raw].
    rewrite Hdf, fmap_app in Hnf. by apply app_inj_tail in Hnf as [? _]. }
  pose proof (Hclk _ _ _ Hll Hlf) as HDl.
  unfold sample_all. rewrite Hrows.
  destruct (df_take_spec D (sample_locs seed (Z.to_nat N))) as (Htn & Htok & Htl).
  eexists. split; [reflexivity|]. split; [unfold columns; congruence|].
  split; [exact Htok|]. rewrite Htl, HDl. reflexivity.
Qed.

(** With a shuffle that permutes the rows, the table has [N] rows and the
    two labels in the numbers drawn. *)
Lemma generate_ok seed N r g0 k :
  n_fraud_of N r = Ok k -> 0 <= k <= N ->
  exists df labels,
    generate np_seed draw sample_locs seed N r g0 = Ok df /\
    columns df = RAW_FIELDS ++ ["is_fraud"] /\
    frame_ok (Z.to_nat N) df /\ nrows df = Z.to_nat N /\
    df_lookup df "is_fraud" = Some labels /\
    count_label 1 labels = Z.to_nat k /\
    count_label 0 labels = Z.to_nat (N - k).
Proof.
  intros Hk Hrange.
  destruct (generate_labels seed N r g0 k Hk Hrange) as (df & Hgen & Hcols & Hok & Hlab).
  assert (Hlen : length (sample_locs seed (Z.to_nat N)) = Z.to_nat N).
  { rewrite sample_locs_perm. apply length_seq. }
  rewrite Hlen in Hok.
  exists df, (take_rows (labels_in_order (N - k) k) (sample_locs seed (Z.to_nat N))).
  split; [exact Hgen|]. split; [exact Hcols|]. split; [exact Hok|]. split.
  { apply frame_ok_nrows; [exact Hok|]. intros Hnil. rewrite Hnil in Hcols. done. }
  split; [exact Hlab|].
  assert (Hperm : take_rows (labels_in_order (N - k) k) (sample_locs seed (Z.to_nat N))
                  ≡ₚ labels_in_order (N - k) k).
  { apply take_permutation. rewrite sample_locs_perm. unfold labels_in_order.
    rewrite length_app, !length_replicate.
    by replace (Z.to_nat (N - k) + Z.to_nat k)%nat with (Z.to_nat N) by lia. }
  rewrite !(count_label_perm _ _ _ Hperm). unfold labels_in_order.
  rewrite !count_label_app, !count_label_replicate.
  split; repeat case_decide; lia.
Qed.

(** A negative population size is refused by the first draw. *)
Lemma generate_negative seed N r g0 k :
  n_fraud_of N r = Ok k -> k < 0 \/ N < k ->
  generate np_seed draw sample_locs seed N r g0 = Raise ValueError.
Proof.
  intros Hk Hrange. unfold generate. rewrite Hk. cbn [mbind result_bind].
  destruct (Z.lt_ge_cases (N - k) 0) as [Hneg|Hpos].
  - unfold make_legit. rewrite draw_columns_negative by done. done.
  - destruct (labelled_frame_ok legit_columns (N - k) (np_seed seed g0) 0)
      as (cl & g1 & Hl & _); [lia|done|rewrite raw_names_legit; apply is_fraud_not_raw|].
    unfold make_legit. rewrite Hl. cbn [mbind result_bind].
    unfold make_fraud. rewrite draw_columns_negative by (done || lia). done.
Qed.

Lemma generate_raise seed N r g0 e :
  n_fraud_of N r = Raise e ->
  generate np_seed draw sample_locs seed N r g0 = Raise e.
Proof. intros Hk. unfold generate. by rewrite Hk. Qed.
End GeneratorFacts.

(** * The generator: row count, labels, errors, reproducibility *)

Lemma demo_draw_length d n g : length (demo_draw d n g).1 = n.
Proof. unfold demo_draw. cbn. by rewrite length_fmap, length_seq. Qed.

Lemma demo_locs_perm s n : demo_locs s n ≡ₚ seq 0 n.
Proof. unfold demo_locs. apply reverse_Permutation. Qed.

Lemma n_fraud_default : n_fraud_of N FRAUD_RATE = Ok 1000.
Proof. vm_compute. reflexivity. Qed.

(** C5: for a row count [N] with [0 < N < 2^53] and a rate strictly between 0
    and 1, the generator returns a table of exactly [N] rows whose columns are
    the fifteen raw fields followed by the label; the label column holds
    [int(N * rate)] ones and [N - int(N * rate)] zeros, and [int(N * rate)] is
    [round(N * rate)] or one less. *)
Theorem generator_row_and_label_counts {rng : Type}
    (np_seed : Z -> rng -> rng) (draw : dist -> nat -> rng -> column * rng)
    (sample_locs : Z -> nat -> list nat)
    (draw_length : forall d n g, length (draw d n g).1 = n)
    (sample_locs_perm : forall s n, sample_locs s n ≡ₚ seq 0 n)
    (seed N : Z) (r : float) (g0 : rng) :
  0 < N < 2 ^ 53 -> (0 <? r)%float = true -> (r <? 1)%float = true ->
  exists df labels x n_fraud rounded,
    py_mul_int_float N r = Ok x /\ py_int x = Ok n_fraud /\
    py_round x = Ok rounded /\ n_fraud <= rounded <= n_fraud + 1 /\
    0 <= n_fraud <= N /\
    generate np_seed draw sample_locs seed N r g0 = Ok df /\
    nrows df = Z.to_nat N /\ frame_ok (Z.to_nat N) df /\
    columns df = RAW_FIELDS ++ ["is_fraud"] /\
    df_lookup df "is_fraud" = Some labels /\
    count_label 1 labels = Z.to_nat n_fraud /\
    count_label 0 labels = Z.to_nat (N - n_fraud).
Proof.
  intros HN H0 H1.
  destruct (py_int_mul_bound N r HN H0 H1) as (x & k & k' & Hx & Hk & Hrange & Hk' & Hround).
  assert (Hnf : n_fraud_of N r = Ok k).
  { unfold n_fraud_of. rewrite Hx. exact Hk. }
  destruct (generate_ok np_seed draw sample_locs draw_length sample_locs_perm
              seed N r g0 k Hnf Hrange)
    as (df & labels & Hgen & Hcols & Hok & Hrows & Hlab & Hc1 & Hc0).
  exists df, labels, x, k, k'. repeat split; try assumption; lia.
Qed.

Lemma generator_row_and_label_counts_witness :
  exists df labels,
    generate demo_seed demo_draw demo_locs 42 1000 0.02%float 0 = Ok df /\
    nrows df = Z.to_nat 1000 /\
    columns df = RAW_FIELDS ++ ["is_fraud"] /\
    df_lookup df "is_fraud" = Some labels /\
    count_label 1 labels = Z.to_nat 20 /\ count_label 0 labels = Z.to_nat 980.
Proof.
  destruct (generator_row_and_label_counts demo_seed demo_draw demo_locs
              demo_draw_length demo_locs_perm 42 1000 0.02%float 0)
    as (df & labels & x & k & k' & Hx & Hk & _ & _ & _ & Hgen & Hrows & _ & Hcols & Hlab & Hc1 & Hc0);
    [lia | reflexivity | reflexivity |].
  assert (Hk20 : k = 20).
  { assert (Hd : n_fraud_of 1000 0.02%float = Ok 20) by (vm_compute; reflexivity).
    unfold n_fraud_of in Hd. rewrite Hx in Hd. cbn [mbind result_bind] in Hd. congruence. }
  subst k. exists df, labels. repeat split; assumption.
Defined.

(** C6: two runs with the same seed, row count and rate give the same table,
    whatever the state of the global generator when each run starts: the
    script reseeds the generator before the first draw (seeding overwrites
    the state, which is numpy's contract and the hypothesis here) and every
    draw continues from there.  The row order of the table is the order of
    the shuffle's own generator, seeded with the same constant: when the two
    population sizes are valid, the label at each row is the label found at
    the position [sample_locs seed N] gives for that row in the sequence of
    the legitimate rows followed by the fraud rows.  The same reproducibility
    holds for the whole training data, whatever the command line. *)
Theorem generator_reproducible {rng : Type}
    (np_seed : Z -> rng -> rng) (draw : dist -> nat -> rng -> column * rng)
    (sample_locs : Z -> nat -> list nat)
    (seed_resets : forall s g g', np_seed s g = np_seed s g')
    (draw_length : forall d n g, length (draw d n g).1 = n)
    (seed N : Z) (r : float) (g0 g0' : rng) (argv argv' : list string) :
  generate np_seed draw sample_locs seed N r g0
    = generate np_seed draw sample_locs seed N r g0' /\
  training_data np_seed draw sample_locs argv g0
    = training_data np_seed draw sample_locs argv' g0' /\
  (forall k, n_fraud_of N r = Ok k -> 0 <= k <= N ->
     exists df,
       generate np_seed draw sample_locs seed N r g0 = Ok df /\
       generate np_seed draw sample_locs seed N r g0' = Ok df /\
       df_lookup df "is_fraud"
         = Some (take_rows (labels_in_order (N - k) k) (sample_locs seed (Z.to_nat N)))).
Proof.
  assert (Hgen : forall s n x, generate np_seed draw sample_locs s n x g0
                               = generate np_seed draw sample_locs s n x g0').
  { intros s n x. unfold generate. by rewrite (seed_resets s g0 g0'). }
  split; [apply Hgen|]. split; [unfold training_data; by rewrite Hgen|].
  intros k Hk Hrange.
  destruct (generate_labels np_seed draw sample_locs draw_length seed N r g0 k Hk Hrange)
    as (df & Hdf & _ & _ & Hlab).
  exists df. split; [exact Hdf|]. split; [by rewrite <- Hgen|exact Hlab].
Qed.

Lemma generator_reproducible_witness :
  generate demo_seed demo_draw demo_locs 42 10 0.2%float 0
    = generate demo_seed demo_draw demo_locs 42 10 0.2%float 99 /\
  (exists df, generate demo_seed demo_draw demo_locs 42 10 0.2%float 0 = Ok df /\
     df_lookup df "is_fraud"
     = Some [VInt 1; VInt 1; VInt 0; VInt 0; VInt 0; VInt 0; VInt 0; VInt 0; VInt 0; VInt 0]) /\
  generate demo_seed demo_draw demo_locs 42 10 0.2%float 0
    <> generate demo_seed demo_draw demo_locs 43 10 0.2%float 0.
Proof.
  destruct (generator_reproducible demo_seed demo_draw demo_locs
              (fun s g g' => eq_refl) demo_draw_length 42 10 0.2%float 0 99 [] [])
    as (Hsame & _ & Horder).
  split; [exact Hsame|]. split.
  - destruct (Horder 2) as (df & Hdf & _ & Hlab); [reflexivity | lia |].
    exists df. split; [exact Hdf|]. rewrite Hlab. reflexivity.
  - vm_compute. intros H. discriminate H.
Defined.

(** C7 does not hold as stated: a rate of 0, which is not inside (0,1), is
    accepted and a table of [N] rows comes back; so is a rate of 1. *)
Lemma generator_accepts_rate_outside :
  (0 <? 0)%float = false /\ (1 <? 1)%float = false /\
  (exists df, generate demo_seed demo_draw demo_locs 42 1000 0%float 0 = Ok df /\
              nrows df = Z.to_nat 1000) /\
  (exists df, generate demo_seed demo_draw demo_locs 42 1000 1%float 0 = Ok df /\
              nrows df = Z.to_nat 1000).
Proof.
  split; [reflexivity|]. split; [reflexivity|]. split.
  - destruct (generate_ok demo_seed demo_draw demo_locs demo_draw_length demo_locs_perm
                42 1000 0%float 0 0) as (df & _ & Hgen & _ & _ & Hrows & _);
      [reflexivity | lia |].
    exists df. split; assumption.
  - destruct (generate_ok demo_seed demo_draw demo_locs demo_draw_length demo_locs_perm
                42 1000 1%float 0 1000) as (df & _ & Hgen & _ & _ & Hrows & _);
      [reflexivity | lia |].
    exists df. split; assumption.
Qed.

(** C7 as amended: the generator validates nothing itself.  It fails exactly
    when [int(N * rate)] cannot be computed or one of the two population
    sizes [int(N * rate)] and [N - int(N * rate)] is negative, and then it
    returns no table; with [0 < N < 2^53] and a rate strictly between 0 and 1
    it does not fail. *)
Theorem generator_errors {rng : Type}
    (np_seed : Z -> rng -> rng) (draw : dist -> nat -> rng -> column * rng)
    (sample_locs : Z -> nat -> list nat)
    (draw_length : forall d n g, length (draw d n g).1 = n)
    (sample_locs_perm : forall s n, sample_locs s n ≡ₚ seq 0 n)
    (seed N : Z) (r : float) (g0 : rng) :
  let run := generate np_seed draw sample_locs seed N r g0 in
  (forall e, n_fraud_of N r = Raise e -> run = Raise e) /\
  (forall k, n_fraud_of N r = Ok k -> k < 0 \/ N < k -> run = Raise ValueError) /\
  (forall k, n_fraud_of N r = Ok k -> 0 <= k <= N -> is_ok run = true) /\
  (0 < N < 2 ^ 53 -> (0 <? r)%float = true -> (r <? 1)%float = true ->
   is_ok run = true).
Proof.
  cbn zeta. split; [|split; [|split]].
  - intros e He. by apply generate_raise.
  - intros k Hk Hr. by eapply generate_negative.
  - intros k Hk Hr.
    destruct (generate_ok np_seed draw sample_locs draw_length sample_locs_perm
                seed N r g0 k Hk Hr) as (df & _ & -> & _). reflexivity.
  - intros HN H0 H1.
    destruct (py_int_mul_bound N r HN H0 H1) as (x & k & _ & Hx & Hk & Hrange & _).
    assert (Hnf : n_fraud_of N r = Ok k) by (unfold n_fraud_of; rewrite Hx; exact Hk).
    destruct (generate_ok np_seed draw sample_locs draw_length sample_locs_perm
                seed N r g0 k Hnf Hrange) as (df & _ & -> & _). reflexivity.
Qed.

Lemma generator_errors_witness :
  generate demo_seed demo_draw demo_locs 42 1000 1.5%float 0 = Raise ValueError /\
  generate demo_seed demo_draw demo_locs 42 1000 (-0.5)%float 0 = Raise ValueError /\
  is_ok (generate demo_seed demo_draw demo_locs 42 1000 0.02%float 0) = true.
Proof.
  destruct (generator_errors demo_seed demo_draw demo_locs demo_draw_length demo_locs_perm
              42 1000 1.5%float 0) as (_ & Hneg & _).
  destruct (generator_errors demo_seed demo_draw demo_locs demo_draw_length demo_locs_perm
              42 1000 (-0.5)%float 0) as (_ & Hneg' & _).
  destruct (generator_errors demo_seed demo_draw demo_locs demo_draw_length demo_locs_perm
              42 1000 0.02%float 0) as (_ & _ & _ & Hok).
  split; [apply (Hneg 1500); [reflexivity | lia]|].
  split; [apply (Hneg' (-500)); [reflexivity | lia]|].
  apply Hok; [lia | reflexivity | reflexivity].
Defined.

(** * The application: artifacts and the training parameters *)

Lemma load_artifacts_missing fs :
  fs !! "fraud_model.joblib" = None \/ fs !! "scaler.joblib" = None \/
  fs !! "feature_names.joblib" = None ->
  exists path, load_artifacts fs = Raise (FileNotFoundError path) /\ fs !! path = None.
Proof.
  intros H. unfold load_artifacts, joblib_load.
  destruct (fs !! "fraud_model.joblib") eqn:E1; [|eauto].
  destruct (fs !! "scaler.joblib") eqn:E2; [|eauto].
  destruct (fs !! "feature_names.joblib") eqn:E3; [|eauto].
  destruct H as [?|[?|?]]; discriminate.
Qed.

(** C8: when one of the three artifact files is absent, loading raises
    [FileNotFoundError]; the run shows the error box asking to run the
    training script and the command to run, then stops: nothing is scored. *)
Theorem missing_artifact_stops_the_app (fs : gmap string pyobj) (i : inputs) :
  fs !! "fraud_model.joblib" = None \/ fs !! "scaler.joblib" = None \/
  fs !! "feature_names.joblib" = None ->
  (exists path, load_artifacts fs = Raise (FileNotFoundError path)) /\
  run_app fs i = ([StMarkdown "css"; StMarkdown "hero";
                   StError model_missing_msg; StCode "python train_model.py"], Stopped) /\
  forall s, StResult s ∉ (run_app fs i).1.
Proof.
  intros H. destruct (load_artifacts_missing fs H) as (path & Hl & _).
  assert (Hrun : run_app fs i = ([StMarkdown "css"; StMarkdown "hero";
                   StError model_missing_msg; StCode "python train_model.py"], Stopped)).
  { unfold run_app. rewrite Hl. reflexivity. }
  split; [eauto|]. split; [exact Hrun|].
  intros s. rewrite Hrun. cbn [fst].
  rewrite !not_elem_of_cons. repeat split; try discriminate. apply not_elem_of_nil.
Qed.

Lemma missing_artifact_stops_the_app_witness :
  run_app ∅ example_inputs
  = ([StMarkdown "css"; StMarkdown "hero";
      StError model_missing_msg; StCode "python train_model.py"], Stopped).
Proof.
  apply (missing_artifact_stops_the_app ∅ example_inputs).
  left. reflexivity.
Defined.

(** C9 does not hold as stated: whatever the command line, the run uses
    50,000 rows and a rate of 0.02. *)
Lemma training_ignores_command_line :
  training_parameters ["--n"; "1000"; "--fraud-rate"; "0.1"] = (50000, 0.02%float).
Proof. reflexivity. Qed.

(** C9 as amended: the training script takes no parameters.  Every run uses
    [N = 50000] and [FRAUD_RATE = 0.02], hence 1000 fraud rows and 49000
    legitimate ones, and its data does not depend on the command line. *)
Theorem training_parameters_fixed {rng : Type}
    (np_seed : Z -> rng -> rng) (draw : dist -> nat -> rng -> column * rng)
    (sample_locs : Z -> nat -> list nat) (argv : list string) (g0 : rng) :
  training_parameters argv = (50000, 0.02%float) /\
  n_fraud_of (training_parameters argv).1 (training_parameters argv).2 = Ok 1000 /\
  training_data np_seed draw sample_locs argv g0
    = training_data np_seed draw sample_locs [] g0.
Proof.
  split; [reflexivity|]. split; [|reflexivity].
  exact n_fraud_default.
Qed.

(** * Further properties of the training-time feature engineering *)

Lemma df_set_same df n c : df_lookup df n = Some c -> df_set df n c = df.
Proof.
  induction df as [|[m c'] df IH]; [done|]. cbn.
  destruct (decide (m = n)) as [->|Hne]; [by intros [= ->]|].
  intros H. by rewrite IH.
Qed.

Lemma df_set_frame_ok k df n c :
  frame_ok k df -> length c = k -> frame_ok k (df_set df n c).
Proof.
  intros Hf Hc. induction Hf as [|[m c'] df Hm Hf IH]; cbn.
  - by repeat constructor.
  - destruct (decide (m = n)); constructor; done.
Qed.

(** The six raw columns the derived features read, in the order they are
    read. *)
Lemma add_derived_unfold df :
  add_derived df =
  (amount ← df_get df "amount";
   avg ← df_get df "avg_amount_30d";
   n1h ← df_get df "num_transactions_1h";
   n24h ← df_get df "num_transactions_24h";
   vel ← df_get df "velocity_score";
   geo ← df_get df "geo_risk_score";
   Ok (df_set (df_set (df_set df "amount_to_avg_ratio"
                         (col_div amount (col_add_scalar avg (VInt 1))))
                 "txn_burst" (col_div n1h (col_add_scalar n24h (VInt 1))))
         "risk_composite" (col_div_scalar (col_add vel geo) (VInt 2)))).
Proof.
  unfold add_derived, df_get.
  destruct (df_lookup df "amount"); [|done].
  destruct (df_lookup df "avg_amount_30d"); [|done]. cbn [mbind result_bind].
  rewrite !df_lookup_set_ne by done.
  destruct (df_lookup df "num_transactions_1h"); [|done].
  destruct (df_lookup df "num_transactions_24h"); [|done]. cbn [mbind result_bind].
  rewrite !df_lookup_set_ne by done.
  destruct (df_lookup df "velocity_score"); [|done].
  destruct (df_lookup df "geo_risk_score"); done.
Qed.

(** The derived features are recomputed from the raw columns: engineering a
    frame that is already engineered changes nothing. *)
Theorem add_derived_idempotent (df df' : DataFrame) :
  add_derived df = Ok df' -> add_derived df' = Ok df'.
Proof.
  rewrite !add_derived_unfold. unfold df_get.
  destruct (df_lookup df "amount") as [a|] eqn:Ea; [|done].
  destruct (df_lookup df "avg_amount_30d") as [v|] eqn:Ev; [|done].
  destruct (df_lookup df "num_transactions_1h") as [n1|] eqn:E1; [|done].
  destruct (df_lookup df "num_transactions_24h") as [n24|] eqn:E24; [|done].
  destruct (df_lookup df "velocity_score") as [ve|] eqn:Eve; [|done].
  destruct (df_lookup df "geo_risk_score") as [ge|] eqn:Ege; [|done].
  cbn [mbind result_bind]. intros [= <-].
  rewrite !df_lookup_set_ne by done. rewrite Ea, Ev, E1, E24, Eve, Ege.
  cbn [mbind result_bind]. f_equal.
  rewrite (df_set_same _ "amount_to_avg_ratio").
  2:{ rewrite !df_lookup_set_ne by done. apply df_lookup_set_eq. }
  rewrite (df_set_same _ "txn_burst").
  2:{ rewrite !df_lookup_set_ne by done. apply df_lookup_set_eq. }
  apply df_set_same, df_lookup_set_eq.
Qed.

Lemma add_derived_idempotent_witness :
  exists df', add_derived example_frame = Ok df' /\ add_derived df' = Ok df'.
Proof.
  destruct (add_derived example_frame) as [df'|] eqn:E; [|discriminate E].
  exists df'. split; [reflexivity|]. exact (add_derived_idempotent example_frame df' E).
Defined.

Lemma add_derived_present df :
  (forall n, n ∈ ["amount"; "avg_amount_30d"; "num_transactions_1h";
                  "num_transactions_24h"; "velocity_score"; "geo_risk_score"] ->
             is_Some (df_lookup df n)) ->
  exists df', add_derived df = Ok df'.
Proof.
  intros Hall. rewrite add_derived_unfold. unfold df_get.
  destruct (Hall "amount") as [? ->]; [rewrite !elem_of_cons; tauto|].
  destruct (Hall "avg_amount_30d") as [? ->]; [rewrite !elem_of_cons; tauto|].
  destruct (Hall "num_transactions_1h") as [? ->]; [rewrite !elem_of_cons; tauto|].
  destruct (Hall "num_transactions_24h") as [? ->]; [rewrite !elem_of_cons; tauto|].
  destruct (Hall "velocity_score") as [? ->]; [rewrite !elem_of_cons; tauto|].
  destruct (Hall "geo_risk_score") as [? ->]; [rewrite !elem_of_cons; tauto|].
  cbn [mbind result_bind]. eauto.
Qed.

(** Feature engineering succeeds exactly when the six raw columns it reads
    are present; otherwise it raises [KeyError] with the first absent one, in
    the order amount, avg_amount_30d, num_transactions_1h,
    num_transactions_24h, velocity_score, geo_risk_score. *)
Theorem add_derived_missing_column (df : DataFrame) :
  let raw := ["amount"; "avg_amount_30d"; "num_transactions_1h";
              "num_transactions_24h"; "velocity_score"; "geo_risk_score"] in
  match list_find (fun n => df_lookup df n = None) raw with
  | None => is_ok (add_derived df) = true
  | Some (_, n) => add_derived df = Raise (KeyError [n])
  end.
Proof.
  cbn zeta. rewrite add_derived_unfold. unfold df_get.
  cbn [list_find]. 
  repeat (case_decide as H; [rewrite H; reflexivity|];
          match type of H with
          | df_lookup df ?n <> None =>
              destruct (df_lookup df n) eqn:?; [clear H|congruence]
          end; cbn [mbind result_bind fmap option_fmap option_map]).
  reflexivity.
Qed.

Lemma add_derived_keeps (df df' : DataFrame) (k : nat) :
  add_derived df = Ok df' -> frame_ok k df ->
  (forall n, n ∉ ["amount_to_avg_ratio"; "txn_burst"; "risk_composite"] ->
     df_lookup df' n = df_lookup df n) /\
  frame_ok k df' /\
  ((forall n, n ∈ ["amount_to_avg_ratio"; "txn_burst"; "risk_composite"] -> n ∉ columns df) ->
   columns df' = columns df ++ ["amount_to_avg_ratio"; "txn_burst"; "risk_composite"]).
Proof.
  rewrite add_derived_unfold. unfold df_get. intros Hadd Hok.
  destruct (df_lookup df "amount") as [a|] eqn:Ea; [|done].
  destruct (df_lookup df "avg_amount_30d") as [v|] eqn:Ev; [|done].
  destruct (df_lookup df "num_transactions_1h") as [n1|] eqn:E1; [|done].
  destruct (df_lookup df "num_transactions_24h") as [n24|] eqn:E24; [|done].
  destruct (df_lookup df "velocity_score") as [ve|] eqn:Eve; [|done].
  destruct (df_lookup df "geo_risk_score") as [ge|] eqn:Ege; [|done].
  cbn [mbind result_bind] in Hadd. injection Hadd as <-.
  pose proof (frame_ok_lookup _ _ _ _ Hok Ea). pose proof (frame_ok_lookup _ _ _ _ Hok Ev).
  pose proof (frame_ok_lookup _ _ _ _ Hok E1). pose proof (frame_ok_lookup _ _ _ _ Hok E24).
  pose proof (frame_ok_lookup _ _ _ _ Hok Eve). pose proof (frame_ok_lookup _ _ _ _ Hok Ege).
  split; [|split].
  - intros n Hn. rewrite !not_elem_of_cons in Hn. destruct Hn as (? & ? & ? & _).
    rewrite !df_lookup_set_ne by done. done.
  - unfold col_div, col_add_scalar, col_div_scalar, col_add.
    repeat apply df_set_frame_ok; try done.
    all: rewrite ?length_fmap, ?length_zip_with, ?length_fmap; lia.
  - intros Hfresh. unfold columns in *.
    assert (Hf1 : "amount_to_avg_ratio" ∉ df.*1)
      by (apply Hfresh; rewrite !elem_of_cons; tauto).
    assert (Hf2 : "txn_burst" ∉ df.*1)
      by (apply Hfresh; rewrite !elem_of_cons; tauto).
    assert (Hf3 : "risk_composite" ∉ df.*1)
      by (apply Hfresh; rewrite !elem_of_cons; tauto).
    rewrite (df_set_fresh df "amount_to_avg_ratio") by done.
    rewrite (df_set_fresh _ "txn_burst").
    2:{ rewrite fmap_app, elem_of_app. cbn [fmap list_fmap fst].
        rewrite list_elem_of_singleton. intros [?|?]; done. }
    rewrite (df_set_fresh _ "risk_composite").
    2:{ rewrite !fmap_app, !elem_of_app. cbn [fmap list_fmap fst].
        rewrite !list_elem_of_singleton. intros [[?|?]|?]; done. }
    rewrite !fmap_app, <- !app_assoc. done.
Qed.

(** Feature engineering only adds: every other column keeps its cells, the
    column names are the old ones followed by the three new ones (when none
    of them was there), and the frame keeps its number of rows. *)
Theorem add_derived_preserves (df df' : DataFrame) (k : nat) :
  add_derived df = Ok df' -> frame_ok k df ->
  (forall n, n ∉ ["amount_to_avg_ratio"; "txn_burst"; "risk_composite"] ->
     df_lookup df' n = df_lookup df n) /\
  frame_ok k df' /\
  ((forall n, n ∈ ["amount_to_avg_ratio"; "txn_burst"; "risk_composite"] -> n ∉ columns df) ->
   columns df' = columns df ++ ["amount_to_avg_ratio"; "txn_burst"; "risk_composite"]).
Proof. apply add_derived_keeps. Qed.

Lemma add_derived_preserves_witness :
  exists df', add_derived example_frame = Ok df' /\ frame_ok 1 df' /\
    columns df' = columns example_frame ++ ["amount_to_avg_ratio"; "txn_burst"; "risk_composite"].
Proof.
  destruct (add_derived example_frame) as [df'|] eqn:E; [|discriminate E].
  destruct (add_derived_preserves example_frame df' 1 E) as (_ & Hok & Hcols).
  { repeat constructor. }
  exists df'. split; [reflexivity|]. split; [exact Hok|].
  apply Hcols. intros n Hn. apply (bool_decide_unpack _).
  rewrite !elem_of_cons, elem_of_nil in Hn.
  destruct Hn as [->|[->|[->|[]]]]; vm_compute; exact I.
Defined.

Lemma df_select_names df names :
  filter (fun n => df_lookup df n = None) names = [] ->
  (omap (fun n => (fun c => (n, c)) <$> df_lookup df n) names).*1 = names /\
  forall n, n ∈ names ->
    df_lookup (omap (fun n => (fun c => (n, c)) <$> df_lookup df n) names) n = df_lookup df n.
Proof.
  induction names as [|m names IH]; [split; [done|intros n Hn; by apply elem_of_nil in Hn]|].
  rewrite filter_cons. destruct (decide (df_lookup df m = None)) as [|Hm]; [done|].
  intros Hf. destruct (IH Hf) as [IH1 IH2].
  destruct (df_lookup df m) as [c|] eqn:Em; [|done]. cbn. rewrite Em. cbn. split; [by f_equal|].
  intros n Hn. destruct (decide (m = n)) as [<-|Hne]; [done|].
  apply elem_of_cons in Hn as [->|Hn]; [done|]. by apply IH2.
Qed.

Lemma df_select_frame_ok k df names X :
  frame_ok k df -> df_select df names = Ok X -> frame_ok k X.
Proof.
  intros Hok. unfold df_select. destruct (filter _ names); [|done]. intros [= <-].
  apply Forall_forall. intros [n c] Hin.
  apply list_elem_of_omap in Hin as (m & _ & Hm).
  destruct (df_lookup df m) as [c'|] eqn:Ec; [|done]. cbn in Hm. injection Hm as <- <-.
  cbn. by eapply frame_ok_lookup.
Qed.

Lemma df_select_present (df : DataFrame) (names : list string) :
  (forall n, n ∈ names -> is_Some (df_lookup df n)) ->
  exists X, df_select df names = Ok X /\ columns X = names /\
    forall n, n ∈ names -> df_lookup X n = df_lookup df n.
Proof.
  intros Hall.
  assert (Hm : filter (fun n => df_lookup df n = None) names = []).
  { apply filter_none, Forall_forall. intros n Hn Hnone.
    destruct (Hall n Hn) as [c Hc]. congruence. }
  unfold df_select. rewrite Hm. eexists. split; [reflexivity|]. by apply df_select_names.
Qed.

(** * Further properties of the generated table *)

Lemma eqb_false_nan (r : float) : (r =? r)%float = false -> Prim2SF r = S754_nan.
Proof.
  rewrite FloatAxioms.eqb_spec. unfold SFeqb.
  destruct (Prim2SF r) as [[]|[]| |[] m e]; cbn; try discriminate; try reflexivity.
  all: fold_pos_compare; rewrite Z.compare_refl, Pos.compare_refl; discriminate.
Qed.

Lemma SFmul_nan_r x : SFmul prec emax x S754_nan = S754_nan.
Proof. by destruct x. Qed.

Section GeneratorEdges.
Context {rng : Type}.
Variable np_seed : Z -> rng -> rng.
Variable draw : dist -> nat -> rng -> column * rng.
Variable sample_locs : Z -> nat -> list nat.

(** A rate that is not a number is refused: [int] of NaN raises [ValueError]
    before anything is drawn, whatever the row count (as long as the count
    itself converts to a float). *)
Theorem generator_rejects_nan_rate (seed N : Z) (r : float) (g0 : rng) :
  (r =? r)%float = false -> is_ok (py_float N) = true ->
  n_fraud_of N r = Raise ValueError /\
  generate np_seed draw sample_locs seed N r g0 = Raise ValueError.
Proof.
  intros Hnan HN.
  assert (H : n_fraud_of N r = Raise ValueError).
  { unfold n_fraud_of, py_mul_int_float. destruct (py_float N) as [x|]; [|discriminate HN].
    cbn [mbind result_bind]. unfold py_int.
    rewrite mul_spec, (eqb_false_nan r Hnan). unfold SF64mul. by rewrite SFmul_nan_r. }
  split; [exact H|]. by apply generate_raise.
Qed.
End GeneratorEdges.

Lemma generator_rejects_nan_rate_witness :
  generate demo_seed demo_draw demo_locs 42 50000 nan 0 = Raise ValueError.
Proof.
  apply (generator_rejects_nan_rate demo_seed demo_draw demo_locs 42 50000 nan 0);
    reflexivity.
Defined.

Section TrainingFacts.
Context {rng : Type}.
Variable np_seed : Z -> rng -> rng.
Variable draw : dist -> nat -> rng -> column * rng.
Variable sample_locs : Z -> nat -> list nat.
Hypothesis draw_length : forall d n g, length (draw d n g).1 = n.
Hypothesis sample_locs_perm : forall s n, sample_locs s n ≡ₚ seq 0 n.

Lemma raw_column_present (df : DataFrame) n :
  columns df = RAW_FIELDS ++ ["is_fraud"] -> n ∈ RAW_FIELDS ++ ["is_fraud"] ->
  is_Some (df_lookup df n).
Proof. intros Hc Hn. apply df_lookup_is_Some. unfold columns in Hc. by rewrite Hc. Qed.

(** The training data: the feature matrix has exactly the eighteen feature
    columns, in the order of [FEATURES], over 50,000 rows, and the label is
    not one of them; the target is the label column of the same 50,000 rows,
    with 1000 ones and 49,000 zeros. *)
Theorem training_data_shape (argv : list string) (g0 : rng) :
  exists X y,
    training_data np_seed draw sample_locs argv g0 = Ok (X, y) /\
    columns X = FEATURES /\ ("is_fraud" ∉ columns X) /\
    frame_ok (Z.to_nat 50000) X /\ length y = Z.to_nat 50000 /\
    count_label 1 y = Z.to_nat 1000 /\ count_label 0 y = Z.to_nat 49000.
Proof.
  unfold training_data.
  destruct (generate_ok np_seed draw sample_locs draw_length sample_locs_perm
              SEED N FRAUD_RATE g0 1000 n_fraud_default ltac:(unfold N; lia))
    as (df & labels & -> & Hcols & Hok & _ & Hlab & Hc1 & Hc0).
  cbn [mbind result_bind].
  assert (Hraw : forall n, n ∈ RAW_FIELDS ++ ["is_fraud"] -> is_Some (df_lookup df n))
    by (intros n; by apply raw_column_present).
  destruct (add_derived_present df) as [df' Hdf'].
  { intros n Hn. apply Hraw. apply (bool_decide_unpack _).
    rewrite !elem_of_cons, elem_of_nil in Hn.
    destruct Hn as [->|[->|[->|[->|[->|[->|[]]]]]]]; vm_compute; exact I. }
  rewrite Hdf'. cbn [mbind result_bind].
  destruct (add_derived_keeps df df' _ Hdf' Hok) as (Hkeep & Hok' & Hcols').
  specialize (Hcols' ltac:(intros n Hn; rewrite Hcols; apply (bool_decide_unpack _);
     rewrite !elem_of_cons, elem_of_nil in Hn;
     destruct Hn as [->|[->|[->|[]]]]; vm_compute; exact I)).
  destruct (df_select_present df' FEATURES) as (X & HX & HXc & HXl).
  { intros n Hn. apply df_lookup_is_Some. change (n ∈ columns df').
    rewrite Hcols', Hcols. apply (bool_decide_unpack _).
    unfold FEATURES in Hn. rewrite !elem_of_cons, elem_of_nil in Hn.
    repeat (destruct Hn as [->|Hn]; [vm_compute; exact I|]). done. }
  rewrite HX. cbn [mbind result_bind].
  assert (Hy : df_lookup df' "is_fraud" = Some labels).
  { rewrite Hkeep; [exact Hlab|]. rewrite !not_elem_of_cons. repeat split; try done.
    apply not_elem_of_nil. }
  unfold df_get. rewrite Hy. cbn [mbind result_bind].
  exists X, labels. split; [reflexivity|]. split; [exact HXc|]. split.
  { rewrite HXc. apply (bool_decide_unpack _). vm_compute. exact I. }
  split.
  { by eapply df_select_frame_ok. }
  split; [by apply (frame_ok_lookup _ _ _ _ Hok') in Hy|]. split; assumption.
Qed.
End TrainingFacts.

Lemma training_data_shape_witness :
  exists X y, training_data demo_seed demo_draw demo_locs [] 0 = Ok (X, y) /\
    columns X = FEATURES /\ count_label 1 y = Z.to_nat 1000.
Proof.
  destruct (training_data_shape demo_seed demo_draw demo_locs demo_draw_length
              demo_locs_perm [] 0) as (X & y & H1 & H2 & _ & _ & _ & H3 & _).
  exists X, y. split; [exact H1|]. split; [exact H2|exact H3].
Defined.

(** * Further properties of the scoring page *)

Lemma SFcompare_Eq_l x y z :
  SFcompare x y = Some Eq -> SFcompare x z = SFcompare y z.
Proof.
  destruct x as [[]|[]| |[] mx ex], y as [[]|[]| |[] my ey]; cbn; try congruence.
  all: try (destruct z as [[]|[]| |[] mz ez]; cbn; congruence).
  all: fold_pos_compare.
  all: destruct (Z.compare_spec ex ey); try congruence;
       destruct (Pos.compare_spec mx my); cbn; try congruence; subst; reflexivity.
Qed.

Lemma SFcompare_Eq_r x y z :
  SFcompare y z = Some Eq -> SFcompare x y = SFcompare x z.
Proof.
  destruct y as [[]|[]| |[] my ey], z as [[]|[]| |[] mz ez]; cbn; try congruence.
  all: try (destruct x as [[]|[]| |[] mx ex]; cbn; congruence).
  all: fold_pos_compare.
  all: destruct (Z.compare_spec ey ez); try congruence;
       destruct (Pos.compare_spec my mz); cbn; try congruence; subst; reflexivity.
Qed.

Lemma SFleb_ltb_trans x y z :
  SFleb x y = true -> SFltb y z = true -> SFltb x z = true.
Proof.
  intros Hxy Hyz. unfold SFleb in Hxy.
  destruct (SFcompare x y) as [[| |]|] eqn:E; try discriminate.
  - unfold SFltb. rewrite (SFcompare_Eq_l x y z E). exact Hyz.
  - apply SFltb_trans with y; [unfold SFltb; by rewrite E|exact Hyz].
Qed.

Lemma SFltb_leb_trans x y z :
  SFltb x y = true -> SFleb y z = true -> SFltb x z = true.
Proof.
  intros Hxy Hyz. unfold SFleb in Hyz.
  destruct (SFcompare y z) as [[| |]|] eqn:E; try discriminate.
  - unfold SFltb. rewrite <- (SFcompare_Eq_r x y z E). exact Hxy.
  - apply SFltb_trans with y; [exact Hxy|unfold SFltb; by rewrite E].
Qed.

Lemma leb_ltb_trans (x y z : float) :
  (x <=? y)%float = true -> (y <? z)%float = true -> (x <? z)%float = true.
Proof. rewrite leb_spec, 2 ltb_spec. apply SFleb_ltb_trans. Qed.

Lemma ltb_leb_trans (x y z : float) :
  (x <? y)%float = true -> (y <=? z)%float = true -> (x <? z)%float = true.
Proof. rewrite leb_spec, 2 ltb_spec. apply SFltb_leb_trans. Qed.

(** A higher fraud probability never gives a lower class or a lower tier. *)
Theorem decision_and_tier_monotone (p q : float) :
  (p <=? q)%float = true ->
  prediction p <= prediction q /\
  (tier_rank (risk_tier p) <= tier_rank (risk_tier q))%nat.
Proof.
  intros Hpq.
  pose proof (fun c => ltb_leb_trans c p q) as Up.
  pose proof (fun c => leb_ltb_trans p q c Hpq) as Down.
  split.
  - rewrite !prediction_cases.
    destruct (0.5 <? p)%float eqn:Ep; [|destruct (0.5 <? q)%float; lia].
    rewrite (Up 0.5%float Ep Hpq). lia.
  - unfold risk_tier, risk.
    pose proof (Down 0.2%float) as D2. pose proof (Down 0.5%float) as D5.
    pose proof (Down 0.8%float) as D8.
    destruct (q <? 0.2)%float; [rewrite D2 by reflexivity; cbn; lia|].
    destruct (q <? 0.5)%float.
    { rewrite D5 by reflexivity. destruct (p <? 0.2)%float; vm_compute; lia. }
    destruct (q <? 0.8)%float.
    { rewrite D8 by reflexivity.
      destruct (p <? 0.2)%float; [vm_compute; lia|].
      destruct (p <? 0.5)%float; vm_compute; lia. }
    destruct (p <? 0.2)%float; [vm_compute; lia|].
    destruct (p <? 0.5)%float; [vm_compute; lia|].
    destruct (p <? 0.8)%float; vm_compute; lia.
Qed.

Lemma decision_and_tier_monotone_witness :
  prediction 0.3 <= prediction 0.6 /\
  (tier_rank (risk_tier 0.3) <= tier_rank (risk_tier 0.6))%nat.
Proof. apply (decision_and_tier_monotone 0.3 0.6). reflexivity. Defined.




Lemma flag_rows_total (fl : list (string * string * string)) :
  Forall (fun f => is_Some (level_color !! f.1.1)) fl ->
  exists rows, flag_rows fl = Ok rows /\ length rows = length fl /\
    rows.*1.*2 = fl.*1.*1.
Proof.
  induction 1 as [|[[level msg] icon] fl [color Hc] _ (rows & IH & Hlen & Hlev)].
  - exists []. done.
  - unfold flag_rows in *. cbn [mapM]. unfold dict_get in *.
    change (level_color !! level = Some color) in Hc. rewrite Hc.
    cbn [mbind result_bind]. rewrite IH. cbn [mbind result_bind].
    eexists. split; [reflexivity|]. cbn. split; congruence.
Qed.

Section ReportFacts.
Variable format_float : string -> float -> string.

(** The risk-factor table is always built: the colour of every level is
    known.  A transaction that is not classified as fraud gets the single LOW
    row; one classified as fraud gets only HIGH and MED rows, at most eight,
    and none at all exactly when no rule fires. *)
Theorem risk_factor_table (p : float) (i : inputs) :
  let fl := flags format_float p i in
  (exists rows, flag_rows fl = Ok rows /\ length rows = length fl /\
     rows.*1.*2 = fl.*1.*1) /\
  (prediction p = 0 ->
     fl = [("LOW", "No significant fraud indicators detected", "✅")]) /\
  (prediction p = 1 ->
     Forall (fun f => f.1.1 = "HIGH" \/ f.1.1 = "MED") fl /\ (length fl <= 8)%nat /\
     (fl = [] <->
      (avg_amt_30d i * 2 <? amount i)%float = false /\ (hour_of_day i <? 6) = false /\
      is_intl i = false /\ (200 <? distance i)%float = false /\
      (5 <? num_txn_1h i) = false /\ (0.7 <? velocity_sc i)%float = false /\
      (0.7 <? geo_risk_sc i)%float = false /\ (0.85 <? credit_pct i)%float = false)).
Proof.
  cbn zeta. rewrite prediction_cases. unfold flags.
  destruct (0.5 <? p)%float.
  - match goal with |- context [flag_rows ?l] => set (fl := l) end.
    assert (Hlev : Forall (fun f : string * string * string =>
                             f.1.1 = "HIGH" \/ f.1.1 = "MED") fl).
    { subst fl. repeat (apply Forall_app; split).
      all: match goal with |- Forall _ (if ?c then _ else _) => destruct c end.
      all: repeat constructor; cbn; tauto. }
    split; [|split; [discriminate|intros _; split; [exact Hlev|split]]].
    + apply flag_rows_total. eapply Forall_impl; [exact Hlev|].
      intros [[level msg] icon] [->| ->]; cbn; eauto.
    + subst fl. rewrite !length_app.
      destruct (avg_amt_30d i * 2 <? amount i)%float, (hour_of_day i <? 6), (is_intl i),
        (200 <? distance i)%float, (5 <? num_txn_1h i), (0.7 <? velocity_sc i)%float,
        (0.7 <? geo_risk_sc i)%float, (0.85 <? credit_pct i)%float; cbn; lia.
    + subst fl.
      destruct (avg_amt_30d i * 2 <? amount i)%float, (hour_of_day i <? 6), (is_intl i),
        (200 <? distance i)%float, (5 <? num_txn_1h i), (0.7 <? velocity_sc i)%float,
        (0.7 <? geo_risk_sc i)%float, (0.85 <? credit_pct i)%float; cbn;
        split; intros H; try discriminate H; try tauto;
        destruct H as (?&?&?&?&?&?&?&?); discriminate.
  - split; [|split; [reflexivity|discriminate]].
    apply flag_rows_total. repeat constructor. cbn. eauto.
Qed.
End ReportFacts.

Lemma risk_factor_table_witness :
  flags (fun _ _ => "") 0.1 example_inputs
    = [("LOW", "No significant fraud indicators detected", "✅")] /\
  flags (fun _ _ => "") 0.9 example_inputs = [].
Proof.
  destruct (risk_factor_table (fun _ _ => "") 0.1 example_inputs) as (_ & Hlow & _).
  destruct (risk_factor_table (fun _ _ => "") 0.9 example_inputs) as (_ & _ & Hhigh).
  split; [apply Hlow; reflexivity|].
  apply Hhigh; [reflexivity|]. repeat split; reflexivity.
Defined.

(** * Further properties of the feature vector and of a run *)

Lemma dow_map_range day k : dow_map !! day = Some k -> 0 <= k <= 6.
Proof.
  unfold dow_map. cbn [list_to_map foldr uncurry].
  repeat (rewrite lookup_insert; case_decide; [intros [= <-]; lia|]).
  rewrite lookup_empty. discriminate.
Qed.

Lemma input_data_day i d :
  input_data i = Ok d ->
  exists k, dow_map !! day_of_week i = Some k /\ d !! "day_of_week" = Some (VInt k).
Proof.
  unfold input_data.
  destruct (amount_to_avg i) as [r1|]; [|done].
  destruct (txn_burst i) as [r2|]; [|done].
  destruct (risk_comp i) as [r3|]; [|done].
  cbn [mbind result_bind]. unfold dict_get.
  destruct (dow_map !! day_of_week i) as [k|] eqn:Hk; [|done].
  cbn [mbind result_bind]. intros [= <-]. exists k. split; [done|].
  vm_compute. reflexivity.
Qed.

(** The day of the week reaches the vector as a code from 0 to 6, one of the
    values the training data draws it from; a day that is not one of the
    seven names makes the assembly of the record fail, so that nothing is
    scored. *)
Theorem day_of_week_encoding (i : inputs) :
  (forall d, input_data i = Ok d ->
     exists k, dow_map !! day_of_week i = Some k /\ 0 <= k <= 6 /\
       k ∈ py_range 0 7 /\ d !! "day_of_week" = Some (VInt k)) /\
  (dow_map !! day_of_week i = None ->
     is_ok (input_data i) = false /\
     forall model scaler features,
       is_ok (score_transaction model scaler features i) = false).
Proof.
  split.
  - intros d Hd. destruct (input_data_day i d Hd) as (k & Hk & Hdk).
    pose proof (dow_map_range _ _ Hk) as Hr.
    exists k. repeat split; try done; try lia.
    apply list_elem_of_In, in_py_range. lia.
  - intros Hnone.
    assert (Hin : is_ok (input_data i) = false).
    { destruct (input_data i) as [d|] eqn:Hd; [|reflexivity].
      destruct (input_data_day i d Hd) as (k & Hk & _). congruence. }
    split; [exact Hin|]. intros model scaler features. unfold score_transaction.
    destruct (input_data i); [discriminate Hin|reflexivity].
Qed.

Lemma day_of_week_encoding_witness :
  is_ok (input_data {| amount := 120; hour_of_day := 14; day_of_week := "Tuesday";
     days_since := 2; merchant_cat := 0; distance := 15; is_online := false;
     is_intl := false; card_present := true; num_txn_1h := 1; num_txn_24h := 4;
     avg_amt_30d := 85; credit_pct := 0.2; velocity_sc := 0.1; geo_risk_sc := 0.05 |})
  = false.
Proof.
  match goal with |- is_ok (input_data ?i) = false =>
    destruct (day_of_week_encoding i) as [_ H] end.
  apply H. reflexivity.
Defined.

(** Outside the ranges of the sliders the application can divide by zero:
    when [avg_amt_30d + 1] is zero, or when [num_txn_24h] is [-1], assembling
    the record raises [ZeroDivisionError] (the column arithmetic of training
    yields an infinity or NaN there); the composite never raises. *)
Theorem derived_features_zero_division (i : inputs) :
  ((avg_amt_30d i + 1 =? 0)%float = true ->
     amount_to_avg i = Raise ZeroDivisionError /\ input_data i = Raise ZeroDivisionError) /\
  (num_txn_24h i = -1 -> txn_burst i = Raise ZeroDivisionError /\
     is_ok (input_data i) = false) /\
  risk_comp i = Ok (VFloat ((velocity_sc i + geo_risk_sc i) / 2)).
Proof.
  split; [|split; [|reflexivity]].
  - intros Hz.
    assert (H : amount_to_avg i = Raise ZeroDivisionError).
    { unfold amount_to_avg. cbn [py_add]. rewrite py_float_1.
      cbn [mbind result_bind py_truediv]. unfold py_truediv_float. by rewrite Hz. }
    split; [exact H|]. unfold input_data. by rewrite H.
  - intros Hm.
    assert (H : txn_burst i = Raise ZeroDivisionError).
    { unfold txn_burst. rewrite Hm. reflexivity. }
    split; [exact H|]. unfold input_data. rewrite H.
    by destruct (amount_to_avg i).
Qed.

Lemma derived_features_zero_division_witness :
  input_data {| amount := 120; hour_of_day := 14; day_of_week := "Tue";
     days_since := 2; merchant_cat := 0; distance := 15; is_online := false;
     is_intl := false; card_present := true; num_txn_1h := 1; num_txn_24h := 4;
     avg_amt_30d := -1; credit_pct := 0.2; velocity_sc := 0.1; geo_risk_sc := 0.05 |}
  = Raise ZeroDivisionError.
Proof.
  match goal with |- input_data ?i = _ =>
    destruct (derived_features_zero_division i) as [H _] end.
  apply H. reflexivity.
Defined.



(** * The feature-importance panel *)

Lemma features_have_labels :
  Forall (fun f => is_Some (label_map !! f)) FEATURES.
Proof. apply (bool_decide_unpack _). vm_compute. exact I. Qed.

Lemma feature_labels_distinct :
  NoDup ((fun f => default f (label_map !! f)) <$> FEATURES).
Proof. apply (bool_decide_unpack _). vm_compute. exact I. Qed.

Section BarFacts.
Variable sort_values : list (string * float) -> list (string * float).
Hypothesis sort_values_perm : forall s, sort_values s ≡ₚ s.

(** With a model that has one importance per feature, the panel shows ten
    bars; each stands for a different feature of [FEATURES], carries that
    feature's importance and is titled with its display name, never with the
    raw column name; two features never share a title.  A model with another
    number of importances makes the panel fail with [ValueError]. *)
Theorem feature_importance_bars (m : Model) :
  (length (feature_importances_ m) <> 18%nat ->
     feature_bars sort_values m FEATURES = Raise ValueError) /\
  (length (feature_importances_ m) = 18%nat ->
     exists bars, feature_bars sort_values m FEATURES = Ok bars /\
       length bars = 10%nat /\
       NoDup bars.*1.*1 /\
       Forall (fun b => exists feat k,
                 FEATURES !! k = Some feat /\ feature_importances_ m !! k = Some b.2 /\
                 label_map !! feat = Some b.1.1 /\ b.1.1 <> feat) bars) /\
  NoDup ((fun f => default f (label_map !! f)) <$> FEATURES).
Proof.
  split; [|split; [|exact feature_labels_distinct]].
  - intros Hlen. unfold feature_bars, pd_Series.
    destruct (Nat.eqb_spec (length (feature_importances_ m)) (length FEATURES)) as [e|_];
      [|reflexivity].
    exfalso. apply Hlen. rewrite e. reflexivity.
  - intros Hlen. unfold feature_bars, pd_Series.
    rewrite Hlen. change (length FEATURES) with 18%nat. rewrite Nat.eqb_refl.
    cbn [mbind result_bind].
    set (fi := sort_values (zip FEATURES (feature_importances_ m))).
    assert (Hperm : fi ≡ₚ zip FEATURES (feature_importances_ m)) by apply sort_values_perm.
    assert (Hfilen : length fi = 18%nat).
    { rewrite Hperm, length_zip, Hlen. reflexivity. }
    assert (Hnd : NoDup fi.*1).
    { rewrite Hperm, fst_zip by (rewrite Hlen; reflexivity).
      apply (bool_decide_unpack _). vm_compute. exact I. }
    eexists. split; [reflexivity|]. split; [|split].
    + rewrite length_fmap, length_take, Hfilen. reflexivity.
    + assert (Hinj : forall a b : string * float, a ∈ take 10 fi -> b ∈ take 10 fi ->
                default a.1 (label_map !! a.1) = default b.1 (label_map !! b.1) -> a.1 = b.1).
      { intros a b Ha Hb Heq.
        assert (HF : forall x : string * float, x ∈ take 10 fi -> x.1 ∈ FEATURES).
        { intros [f v] Hx. apply elem_of_take in Hx as (k & Hx & _).
          apply list_elem_of_lookup_2 in Hx. rewrite Hperm in Hx.
          apply elem_of_zip_l in Hx. exact Hx. }
        pose proof (HF a Ha) as Ha'. pose proof (HF b Hb) as Hb'.
        pose proof feature_labels_distinct as Hd.
        apply list_elem_of_lookup_1 in Ha' as [ka Hka].
        apply list_elem_of_lookup_1 in Hb' as [kb Hkb].
        assert (ka = kb).
        { eapply NoDup_lookup; [exact Hd| |];
            rewrite list_lookup_fmap; [rewrite Hka|rewrite Hkb]; cbn; [reflexivity|by f_equal]. }
        subst kb. congruence. }
      assert (Hndt : NoDup (take 10 fi).*1).
      { rewrite fmap_take. eapply sublist_NoDup; [exact Hnd|apply sublist_take]. }
      revert Hinj Hndt. generalize (take 10 fi). intros l. induction l as [|[f v] l IH]; intros Hinj Hndt.
      { constructor. }
      cbn. cbn in Hndt. apply NoDup_cons in Hndt as [Hf Hl]. constructor.
      * intros Hin. rewrite <- !list_fmap_compose in Hin.
        apply list_elem_of_fmap in Hin as ([f' v'] & Heq & Hin).
        cbn in Heq. apply Hf. apply list_elem_of_fmap. exists (f', v'). split; [|done].
        cbn. apply (Hinj (f, v) (f', v')); [left|right; done|done].
      * apply IH; [|done]. intros a b Ha Hb. apply Hinj; by right.
    + apply Forall_fmap, Forall_forall. intros [f v] Hin.
      unfold compose. cbn beta iota. cbn [fst snd].
      apply elem_of_take in Hin as (k & Hin & _).
      apply list_elem_of_lookup_2 in Hin. rewrite Hperm in Hin.
      apply list_elem_of_lookup_1 in Hin as [j Hj].
      apply lookup_zip_Some in Hj as [Hjf Hjv].
      pose proof features_have_labels as Hlab. rewrite Forall_forall in Hlab.
      destruct (Hlab f (list_elem_of_lookup_2 _ _ _ Hjf)) as [lab Hl].
      exists f, j. rewrite Hl. cbn [default from_option]. repeat split; try done.
      revert Hl. apply list_elem_of_lookup_2 in Hjf. clear -Hjf.
      unfold FEATURES in Hjf. rewrite !elem_of_cons, elem_of_nil in Hjf.
      repeat (destruct Hjf as [->|Hjf]; [vm_compute; intros [= <-]; discriminate|]). done.
Qed.
End BarFacts.

Lemma feature_importance_bars_witness :
  exists bars, feature_bars reverse demo_model FEATURES = Ok bars /\ length bars = 10%nat.
Proof.
  destruct (feature_importance_bars reverse reverse_Permutation demo_model)
    as (_ & H & _).
  destruct (H eq_refl) as (bars & Hb & Hl & _).
  exists bars. split; [exact Hb|exact Hl].
Defined.

